(** * Media-management backend: the auth and media route handlers

    A shallow embedding of [routes_auth.py] and [routes_media.py].  The
    handlers are sequences of calls into collaborators (document store, blob
    store, validators, token and password primitives) wrapped in Python
    [try]/[except] blocks.  They are embedded in a state-and-exception monad
    over an abstract collaborator state; every collaborator call made by a
    handler is appended to a call trace and every logger call to a log, so
    that ordering and "never called" properties can be stated. *)

From stdpp Require Import gmap strings list pretty.

Set Warnings "-register-all".

Open Scope string_scope.
Open Scope Z_scope.

(** ** Python values *)

(** The values that flow through the handlers: what [json.loads] returns and
    what the documents of the store hold. *)
Inductive value :=
| VNone
| VBool (b : bool)
| VInt (n : Z)
| VFloat (lexeme : string)
| VStr (s : string)
| VList (items : list value)
| VDict (entries : list (string * value)).

(** A Python [dict] with string keys, used for store documents and keyword
    arguments. *)
Abbreviation doc := (gmap string value).

Definition bytes := list Byte.byte.

(** [isinstance(v, list)] *)
Definition isinstance_list (v : value) : bool :=
  match v with VList _ => true | _ => false end.

(** Truthiness of an [Optional[str]]: [None] and the empty string are falsy. *)
Definition truthy_str (o : option string) : bool :=
  match o with
  | Some s => negb (String.eqb s "")
  | None => false
  end.

(** Truthiness of an [Optional[bytes]]. *)
Definition truthy_bytes (o : option bytes) : bool :=
  match o with
  | Some (_ :: _) => true
  | _ => false
  end.

(** Truthiness of an [Optional[dict]]: [None] and the empty dict are falsy. *)
Definition truthy_doc (o : option doc) : bool :=
  match o with
  | Some d => negb (bool_decide (d = ∅))
  | None => false
  end.

(** What an f-string interpolates for a value.  Containers are abbreviated:
    the handlers only interpolate strings read from a stored user. *)
Definition str_value (v : value) : string :=
  match v with
  | VStr s => s
  | VNone => "None"
  | VBool true => "True"
  | VBool false => "False"
  | VInt n => pretty n
  | VFloat lexeme => lexeme
  | VList _ => "[...]"
  | VDict _ => "{...}"
  end.

Definition value_of_opt_str (o : option string) : value :=
  match o with Some s => VStr s | None => VNone end.

Arguments truthy_str : simpl never.
Arguments truthy_bytes : simpl never.
Arguments truthy_doc : simpl never.

(** ** Exceptions *)

(** The exception classes the handlers distinguish.  [JSONDecodeError] and
    pydantic's [ValidationError] are subclasses of [ValueError]; every class
    here is a subclass of [Exception] ([BaseException]s such as a
    cancellation pass through every [except] clause of the handlers and are
    left out). *)
Inductive exn :=
| HTTPException (status_code : Z) (detail : string)
| JSONDecodeError (msg : string)
| ValidationError (msg : string)
| ValueError (msg : string)
| KeyError (key : string)
| OtherError (msg : string).

Definition is_HTTPException (e : exn) : bool :=
  match e with HTTPException _ _ => true | _ => false end.

Definition is_JSONDecodeError (e : exn) : bool :=
  match e with JSONDecodeError _ => true | _ => false end.

Definition is_ValueError (e : exn) : bool :=
  match e with
  | JSONDecodeError _ | ValidationError _ | ValueError _ => true
  | _ => false
  end.

Definition is_Exception (e : exn) : bool := true.

(** [str(e)] *)
Definition str_exn (e : exn) : string :=
  match e with
  | HTTPException s d => pretty s +:+ ": " +:+ d
  | JSONDecodeError m | ValidationError m | ValueError m | OtherError m => m
  | KeyError k => "'" +:+ k +:+ "'"
  end.

Definition HTTP_200_OK : Z := 200.
Definition HTTP_201_CREATED : Z := 201.
Definition HTTP_204_NO_CONTENT : Z := 204.
Definition HTTP_400_BAD_REQUEST : Z := 400.
Definition HTTP_401_UNAUTHORIZED : Z := 401.
Definition HTTP_404_NOT_FOUND : Z := 404.
Definition HTTP_409_CONFLICT : Z := 409.
Definition HTTP_500_INTERNAL_SERVER_ERROR : Z := 500.

(** ** Outcomes, traces and the handler monad *)

Inductive outcome (A : Type) :=
| Return (a : A)
| Raise (e : exn).
Arguments Return {A} a.
Arguments Raise {A} e.

(** One entry per collaborator call a handler makes, in call order.  The
    generated identifier and the timestamp are recorded with the value that
    was drawn. *)
Inductive call :=
| CallGetCurrentUserId (authorization : string)
| CallBlobUpload (stream : bytes) (user_id file_name content_type : string)
| CallBlobDelete (blob_name : value)
| CallCreateMedia (payload : doc)
| CallUpdateMedia (media_id user_id : string) (updates : doc)
| CallDeleteMedia (media_id user_id : string)
| CallFetchOwned (media_id user_id : string)
| CallGetUserByEmail (email : string)
| CallCreateUser (account : doc)
| CallHashPassword (password : string)
| CallCreateToken (data : doc)
| CallUuid4 (drawn : string)
| CallUtcnow (drawn : string).

Definition is_blob_delete (c : call) : bool :=
  match c with CallBlobDelete _ => true | _ => false end.

Definition is_blob_upload (c : call) : bool :=
  match c with CallBlobUpload _ _ _ _ => true | _ => false end.

Inductive level := INFO | WARNING | ERROR.

Record log_record := LogRecord {
  log_logger : string;
  log_level : level;
  log_message : string
}.

Section Machine.
Context {world : Type}.

Record machine := Machine {
  ext : world;
  calls : list call;
  logs : list log_record
}.

Definition M (A : Type) : Type := machine -> outcome A * machine.

Definition ret {A} (a : A) : M A := fun s => (Return a, s).

Definition raise {A} (e : exn) : M A := fun s => (Raise e, s).

Definition bind {A B} (m : M A) (k : A -> M B) : M B :=
  fun s =>
    match m s with
    | (Return a, s') => k a s'
    | (Raise e, s') => (Raise e, s')
    end.

(** A value or exception that does not touch the state. *)
Definition lift {A} (o : outcome A) : M A := fun s => (o, s).

(** A Python [try] statement: the first clause whose class test accepts
    the exception handles it; with no matching clause it propagates. *)
Fixpoint dispatch {A} (clauses : list ((exn -> bool) * (exn -> M A)))
    (e : exn) : M A :=
  match clauses with
  | [] => raise e
  | (accepts, handler) :: rest =>
      if accepts e then handler e else dispatch rest e
  end.

Definition try_except {A} (body : M A)
    (clauses : list ((exn -> bool) * (exn -> M A))) : M A :=
  fun s =>
    match body s with
    | (Return a, s') => (Return a, s')
    | (Raise e, s') => dispatch clauses e s'
    end.

(** Trace a collaborator call, then run it on the collaborator state. *)
Definition invoke {A} (c : call) (f : world -> outcome A * world) : M A :=
  fun s =>
    let '(o, w) := f (ext s) in
    (o, {| ext := w; calls := calls s ++ [c]; logs := logs s |}).

(** Same for a call whose trace entry shows the value drawn. *)
Definition draw (c : string -> call) (f : world -> string * world)
    : M string :=
  fun s =>
    let '(x, w) := f (ext s) in
    (Return x, {| ext := w; calls := calls s ++ [c x]; logs := logs s |}).

Definition log (logger : string) (lv : level) (msg : string) : M unit :=
  fun s =>
    (Return tt,
     {| ext := ext s; calls := calls s;
        logs := logs s ++ [LogRecord logger lv msg] |}).

(** [d[key]] *)
Definition subscript (d : doc) (key : string) : M value :=
  match d !! key with
  | Some v => ret v
  | None => raise (KeyError key)
  end.

(** [o[key]] for an [Optional[dict]]; subscripting [None] is a
    [TypeError]. *)
Definition subscript_opt (o : option doc) (key : string) : M value :=
  match o with
  | Some d => subscript d key
  | None => raise (OtherError "'NoneType' object is not subscriptable")
  end.

(** A request starts with an empty trace and an empty log. *)
Definition run {A} (m : M A) (w : world) : outcome A * machine :=
  m {| ext := w; calls := []; logs := [] |}.
End Machine.

Arguments machine : clear implicits.
Arguments M : clear implicits.

Notation "x <- m ;; k" := (bind m (fun x => k))
  (at level 100, m at next level, right associativity).
Notation "m ;;; k" := (bind m (fun _ => k))
  (at level 100, right associativity).

(** ** Request and response models *)

(** Starlette's [UploadFile], reduced to what the handler reads. *)
Record UploadFile := {
  filename : string;
  content_type : string;
  file_data : bytes
}.

Record UserCreate := {
  uc_username : string;
  uc_email : string;
  uc_password : string
}.

Record LoginRequest := {
  lr_email : string;
  lr_password : string
}.

Record MediaUpdate := {
  mu_description : option string;
  mu_tags : option (list string)
}.

(** Modelled from the spec: [UserResponse] and [Token] of [models.py], which
    is not among the sources.  [UserResponse] carries the four fields the
    handlers pass by keyword; pydantic's checks of field types are not
    modelled. *)
Record UserResponse := {
  ur_id : value;
  ur_username : value;
  ur_email : value;
  ur_createdAt : value
}.

Record Token := {
  tk_token : string;
  tk_user : UserResponse
}.

(** Modelled from the spec: [MediaResponse] of [models.py], with the thirteen
    fields of the Media data model. *)
Record MediaResponse := {
  mr_id : value;
  mr_userId : value;
  mr_fileName : value;
  mr_originalFileName : value;
  mr_mediaType : value;
  mr_fileSize : value;
  mr_mimeType : value;
  mr_blobUrl : value;
  mr_thumbnailUrl : value;
  mr_description : value;
  mr_tags : value;
  mr_uploadedAt : value;
  mr_updatedAt : value
}.

Definition required_field (kwargs : doc) (key : string) : outcome value :=
  match kwargs !! key with
  | Some v => Return v
  | None => Raise (ValidationError ("Field required: " +:+ key))
  end.

Definition optional_field (kwargs : doc) (key : string) : value :=
  default VNone (kwargs !! key).

Definition and_then {A B} (o : outcome A) (k : A -> outcome B) : outcome B :=
  match o with
  | Return a => k a
  | Raise e => Raise e
  end.

(** Modelled from the spec: the constructor of [MediaResponse], applied to a
    document unpacked as keyword arguments.  The optional fields
    [thumbnailUrl], [description] and [tags] default to [None]; a missing
    required field is a [ValidationError]; extra keys are ignored.  Coercion
    of field types is not modelled. *)
Definition MediaResponse_init (kwargs : doc) : outcome MediaResponse :=
  and_then (required_field kwargs "id") (fun id_ =>
  and_then (required_field kwargs "userId") (fun userId =>
  and_then (required_field kwargs "fileName") (fun fileName =>
  and_then (required_field kwargs "originalFileName") (fun originalFileName =>
  and_then (required_field kwargs "mediaType") (fun mediaType =>
  and_then (required_field kwargs "fileSize") (fun fileSize =>
  and_then (required_field kwargs "mimeType") (fun mimeType =>
  and_then (required_field kwargs "blobUrl") (fun blobUrl =>
  and_then (required_field kwargs "uploadedAt") (fun uploadedAt =>
  and_then (required_field kwargs "updatedAt") (fun updatedAt =>
  Return {|
    mr_id := id_;
    mr_userId := userId;
    mr_fileName := fileName;
    mr_originalFileName := originalFileName;
    mr_mediaType := mediaType;
    mr_fileSize := fileSize;
    mr_mimeType := mimeType;
    mr_blobUrl := blobUrl;
    mr_thumbnailUrl := optional_field kwargs "thumbnailUrl";
    mr_description := optional_field kwargs "description";
    mr_tags := optional_field kwargs "tags";
    mr_uploadedAt := uploadedAt;
    mr_updatedAt := updatedAt
  |})))))))))).

(** The JSON bodies FastAPI sends for the response models. *)
Definition UserResponse_json (u : UserResponse) : value :=
  VDict [("id", ur_id u); ("username", ur_username u);
         ("email", ur_email u); ("createdAt", ur_createdAt u)].

Definition Token_json (t : Token) : value :=
  VDict [("token", VStr (tk_token t)); ("user", UserResponse_json (tk_user t))].

Definition MediaResponse_json (m : MediaResponse) : value :=
  VDict [("id", mr_id m); ("userId", mr_userId m);
         ("fileName", mr_fileName m);
         ("originalFileName", mr_originalFileName m);
         ("mediaType", mr_mediaType m); ("fileSize", mr_fileSize m);
         ("mimeType", mr_mimeType m); ("blobUrl", mr_blobUrl m);
         ("thumbnailUrl", mr_thumbnailUrl m);
         ("description", mr_description m); ("tags", mr_tags m);
         ("uploadedAt", mr_uploadedAt m); ("updatedAt", mr_updatedAt m)].

(** The keys of a JSON object, in order. *)
Definition json_keys (v : value) : list string :=
  match v with
  | VDict entries => fst <$> entries
  | _ => []
  end.

(** Member [key] of a JSON object. *)
Definition json_get (v : value) (key : string) : option value :=
  match v with
  | VDict entries => snd <$> find (fun kv => String.eqb (fst kv) key) entries
  | _ => None
  end.

(** A JSON object has no member for the hashed password, under the name the
    store uses or the name the data model uses. *)
Definition no_password_member (v : value) : Prop :=
  json_get v "hashed_password" = None /\ json_get v "hashedPassword" = None.

Record http_response := {
  http_status : Z;
  http_body : value
}.

(** What FastAPI sends: the route's status code and the serialised model on
    return, the exception's status code and detail for an [HTTPException]. *)
Definition respond {A} (success_status : Z) (to_json : A -> value)
    (o : outcome A) : http_response :=
  match o with
  | Return a => {| http_status := success_status; http_body := to_json a |}
  | Raise (HTTPException s d) =>
      {| http_status := s; http_body := VDict [("detail", VStr d)] |}
  | Raise _ =>
      {| http_status := HTTP_500_INTERNAL_SERVER_ERROR;
         http_body := VStr "Internal Server Error" |}
  end.

(** ** Collaborators *)

(** The functions the handlers import from modules outside the two route
    files ([auth], [database], [storage], [utils], [media_helpers]) and from
    the Python library ([json], [uuid], [datetime]).  Those that touch the
    stores, the clock or a random source act on the collaborator state. *)
Class Collaborators (world : Type) := {
  get_current_user_id : string -> world -> outcome string * world;
  validate_file_type : UploadFile -> outcome string;
  validate_file_size : UploadFile -> outcome Z;
  generate_thumbnail : bytes -> outcome (option bytes);
  json_loads : string -> outcome value;
  blob_storage_upload_file :
    bytes -> string -> string -> string -> world ->
    outcome (string * string) * world;
  blob_storage_delete_file : value -> world -> outcome unit * world;
  cosmos_db_create_media : doc -> world -> outcome doc * world;
  cosmos_db_update_media :
    string -> string -> doc -> world -> outcome doc * world;
  cosmos_db_delete_media : string -> string -> world -> outcome unit * world;
  cosmos_db_get_user_by_email : string -> world -> outcome (option doc) * world;
  cosmos_db_create_user : doc -> world -> outcome doc * world;
  fetch_and_verify_media_ownership :
    string -> string -> world -> outcome doc * world;
  extract_thumbnail_blob_identifier : doc -> outcome (option string);
  get_password_hash : string -> world -> outcome string * world;
  verify_password : string -> value -> outcome bool;
  create_access_token : doc -> world -> outcome string * world;
  uuid_uuid4 : world -> string * world;
  datetime_utcnow_isoformat : world -> string * world
}.

(** ** The auth handlers ([routes_auth.py]) *)

Section Handlers.
Context {world : Type} `{Collaborators world}.

Definition auth_logger : string := "auth_router".
Definition media_logger : string := "media_router".

Definition register_account (account_payload : UserCreate)
    : M world Token :=
  try_except
    (log auth_logger INFO
       ("Registration attempt for email: " +:+ uc_email account_payload);;;
     existing_account <-
       invoke (CallGetUserByEmail (uc_email account_payload))
         (cosmos_db_get_user_by_email (uc_email account_payload));;
     (if truthy_doc existing_account then
        log auth_logger WARNING
          ("Registration failed: Email already exists "
             +:+ uc_email account_payload);;;
        raise (HTTPException HTTP_400_BAD_REQUEST
                 "User with this email already exists")
      else ret tt);;;
     account_id <- draw CallUuid4 uuid_uuid4;;
     hashed_password <-
       invoke (CallHashPassword (uc_password account_payload))
         (get_password_hash (uc_password account_payload));;
     created_at <- draw CallUtcnow datetime_utcnow_isoformat;;
     let account_doc : doc :=
       list_to_map [
         ("id", VStr account_id);
         ("username", VStr (uc_username account_payload));
         ("email", VStr (uc_email account_payload));
         ("hashed_password", VStr hashed_password);
         ("created_at", VStr created_at)] in
     persisted_user <-
       invoke (CallCreateUser account_doc)
         (cosmos_db_create_user account_doc);;
     log auth_logger INFO
       ("User created successfully: " +:+ uc_email account_payload);;;
     let token_data : doc :=
       list_to_map [
         ("sub", VStr account_id);
         ("email", VStr (uc_email account_payload))] in
     access_token <-
       invoke (CallCreateToken token_data) (create_access_token token_data);;
     user_id <- subscript persisted_user "id";;
     user_username <- subscript persisted_user "username";;
     user_email <- subscript persisted_user "email";;
     user_created_at <- subscript persisted_user "created_at";;
     let response_body :=
       {| ur_id := user_id; ur_username := user_username;
          ur_email := user_email; ur_createdAt := user_created_at |} in
     ret {| tk_token := access_token; tk_user := response_body |})
    [ (is_HTTPException, fun e => raise e);
      (is_ValueError, fun e =>
         log auth_logger ERROR
           ("Registration validation error: " +:+ str_exn e);;;
         raise (HTTPException HTTP_400_BAD_REQUEST (str_exn e)));
      (is_Exception, fun e =>
         log auth_logger ERROR ("Registration error: " +:+ str_exn e);;;
         raise (HTTPException HTTP_500_INTERNAL_SERVER_ERROR
                  ("Failed to register user: " +:+ str_exn e))) ].

Definition login_account (credentials_payload : LoginRequest)
    : M world Token :=
  try_except
    (log auth_logger INFO
       ("Login attempt for email: " +:+ lr_email credentials_payload);;;
     account_record <-
       invoke (CallGetUserByEmail (lr_email credentials_payload))
         (cosmos_db_get_user_by_email (lr_email credentials_payload));;
     (if negb (truthy_doc account_record) then
        log auth_logger WARNING
          ("Login failed: User not found for email "
             +:+ lr_email credentials_payload);;;
        raise (HTTPException HTTP_401_UNAUTHORIZED
                 "Invalid email or password")
      else ret tt);;;
     stored_hash <- subscript_opt account_record "hashed_password";;
     password_ok <-
       lift (verify_password (lr_password credentials_payload) stored_hash);;
     (if negb password_ok then
        log auth_logger WARNING
          ("Login failed: Invalid password for email "
             +:+ lr_email credentials_payload);;;
        raise (HTTPException HTTP_401_UNAUTHORIZED
                 "Invalid email or password")
      else ret tt);;;
     token_sub <- subscript_opt account_record "id";;
     token_email <- subscript_opt account_record "email";;
     let token_data : doc :=
       list_to_map [("sub", token_sub); ("email", token_email)] in
     access_token <-
       invoke (CallCreateToken token_data) (create_access_token token_data);;
     user_id <- subscript_opt account_record "id";;
     user_username <- subscript_opt account_record "username";;
     user_email <- subscript_opt account_record "email";;
     user_created_at <- subscript_opt account_record "created_at";;
     let response_body :=
       {| ur_id := user_id; ur_username := user_username;
          ur_email := user_email; ur_createdAt := user_created_at |} in
     logged_email <- subscript_opt account_record "email";;
     log auth_logger INFO
       ("Login successful for user: " +:+ str_value logged_email);;;
     ret {| tk_token := access_token; tk_user := response_body |})
    [ (is_HTTPException, fun e => raise e);
      (is_Exception, fun e =>
         log auth_logger ERROR ("Login error: " +:+ str_exn e);;;
         raise (HTTPException HTTP_500_INTERNAL_SERVER_ERROR
                  ("Failed to login: " +:+ str_exn e))) ].
(** ** The media handlers ([routes_media.py]) *)

(** The "Parse tags if provided" block of [upload_media]. *)
Definition parse_tags (tags : option string) : M world value :=
  if truthy_str tags then
    try_except
      (parsed_tags <- lift (json_loads (default "" tags));;
       if negb (isinstance_list parsed_tags) then
         raise (ValueError "Tags must be an array")
       else ret parsed_tags)
      [ (is_JSONDecodeError, fun _ =>
           raise (HTTPException HTTP_400_BAD_REQUEST
                    "Invalid tags format. Must be a JSON array.")) ]
  else ret VNone.

(** The "Generate thumbnail for images" block of [upload_media]; its
    result is [preview_url]. *)
Definition upload_thumbnail (file : UploadFile) (user_id : string)
    (media_kind : string) (raw_payload : bytes) : M world value :=
  if String.eqb media_kind "image" then
    preview_data <- lift (generate_thumbnail raw_payload);;
    if truthy_bytes preview_data then
      try_except
        (uploaded_preview <-
           invoke
             (CallBlobUpload (default [] preview_data) user_id
                ("thumb_" +:+ filename file) "image/jpeg")
             (blob_storage_upload_file (default [] preview_data) user_id
                ("thumb_" +:+ filename file) "image/jpeg");;
         ret (VStr (snd uploaded_preview)))
        [ (is_Exception, fun e =>
             log media_logger WARNING
               ("Failed to upload thumbnail: " +:+ str_exn e);;;
             ret VNone) ]
    else ret VNone
  else ret VNone.

(** The [media_payload] dict literal of [upload_media]. *)
Definition media_payload_of (file : UploadFile) (description : option string)
    (user_id media_identifier timestamp_iso media_kind : string)
    (uploaded_size : Z) (uploaded_name uploaded_url : string)
    (preview_url parsed_tags : value) : doc :=
  list_to_map [
    ("id", VStr media_identifier);
    ("userId", VStr user_id);
    ("fileName", VStr uploaded_name);
    ("originalFileName", VStr (filename file));
    ("mediaType", VStr media_kind);
    ("fileSize", VInt uploaded_size);
    ("mimeType", VStr (content_type file));
    ("blobUrl", VStr uploaded_url);
    ("thumbnailUrl", preview_url);
    ("description", value_of_opt_str description);
    ("tags", parsed_tags);
    ("uploadedAt", VStr timestamp_iso);
    ("updatedAt", VStr timestamp_iso)].

(** [await file.read()] gives the content of the upload and
    [await file.seek(0)] rewinds it, so [raw_payload] and the stream handed
    to the blob store are both [file_data file]. *)
Definition upload_media (file : UploadFile) (description tags : option string)
    (user_id : string) : M world MediaResponse :=
  try_except
    (media_kind <- lift (validate_file_type file);;
     uploaded_size <- lift (validate_file_size file);;
     parsed_tags <- parse_tags tags;;
     let raw_payload := file_data file in
     uploaded <-
       invoke
         (CallBlobUpload (file_data file) user_id (filename file)
            (content_type file))
         (blob_storage_upload_file (file_data file) user_id (filename file)
            (content_type file));;
     let uploaded_name := fst uploaded in
     let uploaded_url := snd uploaded in
     preview_url <- upload_thumbnail file user_id media_kind raw_payload;;
     media_identifier <- draw CallUuid4 uuid_uuid4;;
     timestamp_iso <- draw CallUtcnow datetime_utcnow_isoformat;;
     let media_payload :=
       media_payload_of file description user_id media_identifier
         timestamp_iso media_kind uploaded_size uploaded_name uploaded_url
         preview_url parsed_tags in
     persisted_media <-
       invoke (CallCreateMedia media_payload)
         (cosmos_db_create_media media_payload);;
     lift (MediaResponse_init persisted_media))
    [ (is_HTTPException, fun e => raise e);
      (is_Exception, fun e =>
         log media_logger ERROR ("Upload error: " +:+ str_exn e);;;
         raise (HTTPException HTTP_500_INTERNAL_SERVER_ERROR
                  ("Failed to upload media: " +:+ str_exn e))) ].

(** The [update_payload] dict of [update_media_metadata]: the timestamp,
    then each field of the request that is not [None]. *)
Definition update_payload_of (now : string) (update_data : MediaUpdate)
    : doc :=
  let update_payload : doc := {[ "updatedAt" := VStr now ]} in
  let update_payload :=
    match mu_description update_data with
    | Some description => <[ "description" := VStr description ]> update_payload
    | None => update_payload
    end in
  match mu_tags update_data with
  | Some tags => <[ "tags" := VList (VStr <$> tags) ]> update_payload
  | None => update_payload
  end.

Definition update_media_metadata (media_id : string)
    (update_data : MediaUpdate) (user_id : string)
    : M world MediaResponse :=
  try_except
    (existing_media <-
       invoke (CallFetchOwned media_id user_id)
         (fetch_and_verify_media_ownership media_id user_id);;
     now <- draw CallUtcnow datetime_utcnow_isoformat;;
     let update_payload := update_payload_of now update_data in
     updated_media <-
       invoke (CallUpdateMedia media_id user_id update_payload)
         (cosmos_db_update_media media_id user_id update_payload);;
     lift (MediaResponse_init updated_media))
    [ (is_HTTPException, fun e => raise e);
      (is_ValueError, fun e =>
         raise (HTTPException HTTP_404_NOT_FOUND (str_exn e)));
      (is_Exception, fun e =>
         log media_logger ERROR ("Update media error: " +:+ str_exn e);;;
         raise (HTTPException HTTP_500_INTERNAL_SERVER_ERROR
                  "Failed to update media")) ].

Definition delete_media (media_id user_id : string) : M world unit :=
  try_except
    (media_record <-
       invoke (CallFetchOwned media_id user_id)
         (fetch_and_verify_media_ownership media_id user_id);;
     primary_blob <- subscript media_record "fileName";;
     invoke (CallBlobDelete primary_blob)
       (blob_storage_delete_file primary_blob);;;
     preview_blob_id <- lift (extract_thumbnail_blob_identifier media_record);;
     (if truthy_str preview_blob_id then
        try_except
          (invoke (CallBlobDelete (value_of_opt_str preview_blob_id))
             (blob_storage_delete_file (value_of_opt_str preview_blob_id)))
          [ (is_Exception, fun e =>
               log media_logger WARNING
                 ("Thumbnail deletion failed: " +:+ str_exn e)) ]
      else ret tt);;;
     invoke (CallDeleteMedia media_id user_id)
       (cosmos_db_delete_media media_id user_id);;;
     ret tt)
    [ (is_HTTPException, fun e => raise e);
      (is_Exception, fun e =>
         log media_logger ERROR ("Delete media error: " +:+ str_exn e);;;
         raise (HTTPException HTTP_500_INTERNAL_SERVER_ERROR
                  "Failed to delete media")) ].

(** ** Routes *)

(** [Depends(get_current_user_id)]: FastAPI resolves the caller from the
    request before it calls the endpoint; an exception of the dependency is
    not seen by the endpoint's [try]. *)
Definition depends_current_user {A} (authorization : string)
    (endpoint : string -> M world A) : M world A :=
  user_id <-
    invoke (CallGetCurrentUserId authorization)
      (get_current_user_id authorization);;
  endpoint user_id.

Definition serve {A} (success_status : Z) (to_json : A -> value)
    (m : M world A) (w : world) : http_response * machine world :=
  let '(o, s) := run m w in (respond success_status to_json o, s).

Definition POST_auth_register (account_payload : UserCreate) :=
  serve HTTP_200_OK Token_json (register_account account_payload).

Definition POST_auth_login (credentials_payload : LoginRequest) :=
  serve HTTP_200_OK Token_json (login_account credentials_payload).

Definition POST_media (authorization : string) (file : UploadFile)
    (description tags : option string) :=
  serve HTTP_201_CREATED MediaResponse_json
    (depends_current_user authorization
       (upload_media file description tags)).

Definition PUT_media (authorization media_id : string)
    (update_data : MediaUpdate) :=
  serve HTTP_200_OK MediaResponse_json
    (depends_current_user authorization
       (update_media_metadata media_id update_data)).

Definition DELETE_media (authorization media_id : string) :=
  serve HTTP_204_NO_CONTENT (fun _ : unit => VNone)
    (depends_current_user authorization (delete_media media_id)).
End Handlers.

(** ** The read handlers of [routes_media.py] *)

(** Modelled from the spec: [MediaListResponse] of [models.py], with the four
    fields the handlers pass by keyword. *)
Record MediaListResponse := {
  ml_items : list MediaResponse;
  ml_total : Z;
  ml_page : Z;
  ml_pageSize : Z
}.

Definition MediaListResponse_json (l : MediaListResponse) : value :=
  VDict [("items", VList (MediaResponse_json <$> ml_items l));
         ("total", VInt (ml_total l));
         ("page", VInt (ml_page l));
         ("pageSize", VInt (ml_pageSize l))].

(** The list comprehension that builds a [MediaResponse] from every item, in
    order; the first item that fails validation raises. *)
Fixpoint MediaResponse_each (items : list doc) : outcome (list MediaResponse) :=
  match items with
  | [] => Return []
  | item :: rest =>
      and_then (MediaResponse_init item) (fun response =>
      and_then (MediaResponse_each rest) (fun responses =>
      Return (response :: responses)))
  end.

(** The keys [MediaResponse] requires. *)
Definition media_required_fields : list string :=
  ["id"; "userId"; "fileName"; "originalFileName"; "mediaType"; "fileSize";
   "mimeType"; "blobUrl"; "uploadedAt"; "updatedAt"].

(** The two queries of the document store the read handlers use; each
    returns a page of documents and the total count. *)
Class MediaQueries (world : Type) := {
  cosmos_db_search_media :
    string -> string -> Z -> Z -> world -> outcome (list doc * Z) * world;
  cosmos_db_get_user_media :
    string -> Z -> Z -> option string -> world ->
    outcome (list doc * Z) * world
}.

Section ReadHandlers.
Context {world : Type} `{Collaborators world} `{MediaQueries world}.

(** A query of the store; queries are not entered in the call trace. *)
Definition read_store {A} (f : world -> outcome A * world) : M world A :=
  fun s =>
    let '(o, w) := f (ext s) in
    (o, {| ext := w; calls := calls s; logs := logs s |}).

Definition search_media (query : string) (page pageSize : Z)
    (user_id : string) : M world MediaListResponse :=
  try_except
    (found <- read_store (cosmos_db_search_media user_id query page pageSize);;
     let search_results := fst found in
     let record_count := snd found in
     response_items <- lift (MediaResponse_each search_results);;
     ret {| ml_items := response_items; ml_total := record_count;
            ml_page := page; ml_pageSize := pageSize |})
    [ (is_Exception, fun e =>
         log media_logger ERROR ("Search media error: " +:+ str_exn e);;;
         raise (HTTPException HTTP_500_INTERNAL_SERVER_ERROR
                  "Failed to search media")) ].

Definition get_media_list (page pageSize : Z) (mediaType : option string)
    (user_id : string) : M world MediaListResponse :=
  try_except
    (found <-
       read_store (cosmos_db_get_user_media user_id page pageSize mediaType);;
     let user_media := fst found in
     let record_count := snd found in
     response_items <- lift (MediaResponse_each user_media);;
     ret {| ml_items := response_items; ml_total := record_count;
            ml_page := page; ml_pageSize := pageSize |})
    [ (is_Exception, fun e =>
         log media_logger ERROR ("Get media list error: " +:+ str_exn e);;;
         raise (HTTPException HTTP_500_INTERNAL_SERVER_ERROR
                  "Failed to retrieve media list")) ].

Definition get_media_by_id (media_id user_id : string)
    : M world MediaResponse :=
  try_except
    (media_snapshot <-
       invoke (CallFetchOwned media_id user_id)
         (fetch_and_verify_media_ownership media_id user_id);;
     lift (MediaResponse_init media_snapshot))
    [ (is_HTTPException, fun e => raise e);
      (is_Exception, fun e =>
         log media_logger ERROR ("Get media error: " +:+ str_exn e);;;
         raise (HTTPException HTTP_500_INTERNAL_SERVER_ERROR
                  "Failed to retrieve media")) ].
End ReadHandlers.

(** ** An in-memory realisation of the collaborators

    The modules behind the collaborators are not among the sources.  This
    realisation follows the interfaces the specification gives for them and
    serves to run the handlers on concrete requests. *)

Module InMemory.

Record store := {
  users : list doc;
  media : gmap string doc;
  blobs : gmap string bytes;
  unavailable : list string;
  uuid_counter : nat;
  clock : nat
}.

Fixpoint strip_prefix (prefix s : string) : option string :=
  match prefix, s with
  | EmptyString, _ => Some s
  | String a prefix', String b s' =>
      if Ascii.eqb a b then strip_prefix prefix' s' else None
  | String _ _, EmptyString => None
  end.

Definition blob_base_url : string := "https://blobs.test/".
Definition max_file_size : Z := 8.

(** Modelled from the spec: the token validation behind
    [get_current_user_id]; a token carries its subject, and an invalid or
    missing token fails with Unauthorized. *)
Definition current_user_id (authorization : string) (w : store)
    : outcome string * store :=
  match strip_prefix "Bearer token:" authorization with
  | Some sub => (Return sub, w)
  | None =>
      (Raise (HTTPException HTTP_401_UNAUTHORIZED
                "Could not validate credentials"), w)
  end.

(** Modelled from the spec: [validate_file_type] checks the MIME type
    against an allowed set and fails with BadRequest otherwise. *)
Definition file_type (file : UploadFile) : outcome string :=
  if String.eqb (content_type file) "image/jpeg" then Return "image"
  else if String.eqb (content_type file) "image/png" then Return "image"
  else if String.eqb (content_type file) "video/mp4" then Return "video"
  else Raise (HTTPException HTTP_400_BAD_REQUEST "Unsupported file type").

(** Modelled from the spec: [validate_file_size] checks the size against a
    maximum and fails with BadRequest otherwise. *)
Definition file_size (file : UploadFile) : outcome Z :=
  let size := Z.of_nat (length (file_data file)) in
  if size <=? max_file_size then Return size
  else Raise (HTTPException HTTP_400_BAD_REQUEST "File too large").

(** Modelled from the spec: [generate_thumbnail]; here the thumbnail of a
    non-empty image is its first two bytes. *)
Definition thumbnail (raw : bytes) : outcome (option bytes) :=
  match raw with
  | [] => Return None
  | _ => Return (Some (take 2 raw))
  end.

(** [json.loads] on the inputs used below; any other input is taken to be
    malformed. *)
Definition loads (s : string) : outcome value :=
  if String.eqb s "[1,2,3]" then Return (VList [VInt 1; VInt 2; VInt 3])
  else if String.eqb s "[]" then Return (VList [])
  else if String.eqb s "{}" then Return (VDict [])
  else if String.eqb s "5" then Return (VInt 5)
  else if String.eqb s "null" then Return VNone
  else Raise (JSONDecodeError "Expecting value: line 1 column 1 (char 0)").

Definition is_unavailable (name : string) (w : store) : bool :=
  existsb (String.eqb name) (unavailable w).

(** Modelled from the spec: the blob store's [uploadFile], which stores the
    content under a name scoped by user and returns the stored name and its
    URL.  It raises on the names listed as unavailable. *)
Definition upload_file (stream : bytes) (user_id file_name ctype : string)
    (w : store) : outcome (string * string) * store :=
  let name := user_id +:+ "/" +:+ file_name in
  if is_unavailable name w then
    (Raise (OtherError "blob service unavailable"), w)
  else
    (Return (name, blob_base_url +:+ name),
     {| users := users w; media := media w;
        blobs := <[ name := stream ]> (blobs w);
        unavailable := unavailable w;
        uuid_counter := uuid_counter w; clock := clock w |}).

(** Modelled from the spec: the blob store's [deleteFile]. *)
Definition delete_file (blob_name : value) (w : store)
    : outcome unit * store :=
  match blob_name with
  | VStr name =>
      if is_unavailable name w then
        (Raise (OtherError "blob service unavailable"), w)
      else
        (Return tt,
         {| users := users w; media := media w;
            blobs := delete name (blobs w);
            unavailable := unavailable w;
            uuid_counter := uuid_counter w; clock := clock w |})
  | _ => (Raise (OtherError "blob name must be a string"), w)
  end.

Definition set_media (m : gmap string doc) (w : store) : store :=
  {| users := users w; media := m; blobs := blobs w;
     unavailable := unavailable w;
     uuid_counter := uuid_counter w; clock := clock w |}.

(** Modelled from the spec: [createMedia] persists the record and returns
    it. *)
Definition create_media (payload : doc) (w : store) : outcome doc * store :=
  match payload !! "id" with
  | Some (VStr media_id) =>
      (Return payload, set_media (<[ media_id := payload ]> (media w)) w)
  | _ => (Raise (ValueError "document has no id"), w)
  end.

Definition owned_by (user_id : string) (d : doc) : bool :=
  match d !! "userId" with
  | Some (VStr owner) => String.eqb owner user_id
  | _ => false
  end.

(** Modelled from the spec: [updateMedia], keyed by owning user, writes the
    given fields over the stored record and returns the result. *)
Definition update_media (media_id user_id : string) (updates : doc)
    (w : store) : outcome doc * store :=
  match media w !! media_id with
  | Some d =>
      if owned_by user_id d then
        (Return (updates ∪ d),
         set_media (<[ media_id := updates ∪ d ]> (media w)) w)
      else (Raise (ValueError "Media not found"), w)
  | None => (Raise (ValueError "Media not found"), w)
  end.

(** Modelled from the spec: [deleteMedia], keyed by owning user. *)
Definition remove_media (media_id user_id : string) (w : store)
    : outcome unit * store :=
  (Return tt, set_media (delete media_id (media w)) w).

Definition has_email (email : string) (d : doc) : bool :=
  match d !! "email" with
  | Some (VStr e) => String.eqb e email
  | _ => false
  end.

(** Modelled from the spec: [getUserByEmail]. *)
Definition get_user_by_email (email : string) (w : store)
    : outcome (option doc) * store :=
  (Return (find (has_email email) (users w)), w).

(** Modelled from the spec: [createUser] persists the user and returns
    it. *)
Definition create_user (account : doc) (w : store) : outcome doc * store :=
  (Return account,
   {| users := users w ++ [account]; media := media w; blobs := blobs w;
      unavailable := unavailable w;
      uuid_counter := uuid_counter w; clock := clock w |}).

(** Modelled from the spec: the ownership-check routine; an absent record
    and a record of another user both fail with NotFound. *)
Definition fetch_owned (media_id user_id : string) (w : store)
    : outcome doc * store :=
  match media w !! media_id with
  | Some d =>
      if owned_by user_id d then (Return d, w)
      else (Raise (HTTPException HTTP_404_NOT_FOUND "Media not found"), w)
  | None => (Raise (HTTPException HTTP_404_NOT_FOUND "Media not found"), w)
  end.

(** Modelled from the spec: [extract_thumbnail_blob_identifier] gives the
    stored name of the thumbnail blob if one is recorded. *)
Definition thumbnail_blob (d : doc) : outcome (option string) :=
  match d !! "thumbnailUrl" with
  | Some (VStr url) => Return (strip_prefix blob_base_url url)
  | _ => Return None
  end.

(** Modelled from the spec: the password-hashing primitive. *)
Definition password_hash (password : string) (w : store)
    : outcome string * store :=
  (Return ("hash:" +:+ password), w).

Definition password_matches (password : string) (hashed : value)
    : outcome bool :=
  match hashed with
  | VStr h => Return (String.eqb h ("hash:" +:+ password))
  | _ => Return false
  end.

(** Modelled from the spec: token issuance bound to the subject. *)
Definition access_token (data : doc) (w : store) : outcome string * store :=
  match data !! "sub" with
  | Some (VStr sub) => (Return ("token:" +:+ sub), w)
  | _ => (Raise (OtherError "token data has no subject"), w)
  end.

Definition uuid4 (w : store) : string * store :=
  ("uuid-" +:+ pretty (uuid_counter w),
   {| users := users w; media := media w; blobs := blobs w;
      unavailable := unavailable w;
      uuid_counter := S (uuid_counter w); clock := clock w |}).

Definition utcnow_isoformat (w : store) : string * store :=
  ("2024-01-01T00:00:0" +:+ pretty (clock w),
   {| users := users w; media := media w; blobs := blobs w;
      unavailable := unavailable w;
      uuid_counter := uuid_counter w; clock := S (clock w) |}).

#[export] Instance collaborators : Collaborators store := {
  get_current_user_id := current_user_id;
  validate_file_type := file_type;
  validate_file_size := file_size;
  generate_thumbnail := thumbnail;
  json_loads := loads;
  blob_storage_upload_file := upload_file;
  blob_storage_delete_file := delete_file;
  cosmos_db_create_media := create_media;
  cosmos_db_update_media := update_media;
  cosmos_db_delete_media := remove_media;
  cosmos_db_get_user_by_email := get_user_by_email;
  cosmos_db_create_user := create_user;
  fetch_and_verify_media_ownership := fetch_owned;
  extract_thumbnail_blob_identifier := thumbnail_blob;
  get_password_hash := password_hash;
  verify_password := password_matches;
  create_access_token := access_token;
  uuid_uuid4 := uuid4;
  datetime_utcnow_isoformat := utcnow_isoformat
}.

(** *** Concrete requests *)

Definition empty_store : store :=
  {| users := []; media := ∅; blobs := ∅; unavailable := [];
     uuid_counter := 0; clock := 0 |}.

Definition alice : doc :=
  list_to_map [
    ("id", VStr "alice");
    ("username", VStr "Alice");
    ("email", VStr "alice@example.org");
    ("hashed_password", VStr "hash:wonderland");
    ("created_at", VStr "2023-12-31T00:00:00")].

Definition with_alice : store :=
  {| users := [alice]; media := ∅; blobs := ∅; unavailable := [];
     uuid_counter := 0; clock := 0 |}.

Definition photo : UploadFile :=
  {| filename := "a.jpg"; content_type := "image/jpeg";
     file_data := [Byte.x89; Byte.x50; Byte.x4e] |}.

Definition notes : UploadFile :=
  {| filename := "notes.txt"; content_type := "text/plain";
     file_data := [Byte.x68; Byte.x69] |}.

Definition long_video : UploadFile :=
  {| filename := "v.mp4"; content_type := "video/mp4";
     file_data := repeat Byte.x00 9 |}.

(** The blob store refuses the thumbnail of [a.jpg]. *)
Definition thumbnails_down : store :=
  {| users := [alice]; media := ∅; blobs := ∅;
     unavailable := ["alice/thumb_a.jpg"];
     uuid_counter := 0; clock := 0 |}.

Definition stored_photo : doc :=
  list_to_map [
    ("id", VStr "m1");
    ("userId", VStr "alice");
    ("fileName", VStr "alice/a.jpg");
    ("originalFileName", VStr "a.jpg");
    ("mediaType", VStr "image");
    ("fileSize", VInt 3);
    ("mimeType", VStr "image/jpeg");
    ("blobUrl", VStr "https://blobs.test/alice/a.jpg");
    ("thumbnailUrl", VStr "https://blobs.test/alice/thumb_a.jpg");
    ("description", VStr "holiday");
    ("tags", VNone);
    ("uploadedAt", VStr "2023-12-31T10:00:00");
    ("updatedAt", VStr "2023-12-31T10:00:00")].

Definition stored_video : doc :=
  list_to_map [
    ("id", VStr "m2");
    ("userId", VStr "alice");
    ("fileName", VStr "alice/v.mp4");
    ("originalFileName", VStr "v.mp4");
    ("mediaType", VStr "video");
    ("fileSize", VInt 5);
    ("mimeType", VStr "video/mp4");
    ("blobUrl", VStr "https://blobs.test/alice/v.mp4");
    ("thumbnailUrl", VNone);
    ("description", VNone);
    ("tags", VNone);
    ("uploadedAt", VStr "2023-12-31T11:00:00");
    ("updatedAt", VStr "2023-12-31T11:00:00")].

(** Alice owns a photo with a thumbnail and a video without one; the blob
    names listed in [down] are unavailable. *)
Definition library (down : list string) : store :=
  {| users := [alice];
     media := <[ "m1" := stored_photo ]> (<[ "m2" := stored_video ]> ∅);
     blobs :=
       <[ "alice/a.jpg" := [Byte.x89; Byte.x50; Byte.x4e] ]>
         (<[ "alice/thumb_a.jpg" := [Byte.x89; Byte.x50] ]>
            (<[ "alice/v.mp4" := repeat Byte.x00 5 ]> ∅));
     unavailable := down;
     uuid_counter := 2; clock := 5 |}.

Definition bob_signup : UserCreate :=
  {| uc_username := "Bob"; uc_email := "bob@example.org";
     uc_password := "builder" |}.

Definition alice_signup : UserCreate :=
  {| uc_username := "Alice2"; uc_email := "alice@example.org";
     uc_password := "looking-glass" |}.

Definition alice_login : LoginRequest :=
  {| lr_email := "alice@example.org"; lr_password := "wonderland" |}.

Definition alice_wrong_password : LoginRequest :=
  {| lr_email := "alice@example.org"; lr_password := "guess" |}.

Definition nobody_login : LoginRequest :=
  {| lr_email := "nobody@example.org"; lr_password := "wonderland" |}.

Definition retitle : MediaUpdate :=
  {| mu_description := Some "beach"; mu_tags := None |}.

(** *** The store queries *)

Fixpoint contains (needle hay : string) : bool :=
  match strip_prefix needle hay with
  | Some _ => true
  | None =>
      match hay with
      | EmptyString => false
      | String _ rest => contains needle rest
      end
  end.

Definition field_contains (needle : string) (d : doc) (key : string) : bool :=
  match d !! key with
  | Some (VStr text) => contains needle text
  | _ => false
  end.

Definition tag_contains (needle : string) (d : doc) : bool :=
  match d !! "tags" with
  | Some (VList tags) =>
      existsb
        (fun tag => match tag with VStr t => contains needle t | _ => false end)
        tags
  | _ => false
  end.

Definition has_media_type (media_type : option string) (d : doc) : bool :=
  match media_type, d !! "mediaType" with
  | None, _ => true
  | Some wanted, Some (VStr kind) => String.eqb wanted kind
  | Some _, _ => false
  end.

Definition owned_media (user_id : string) (w : store) : list doc :=
  List.filter (owned_by user_id) (snd <$> map_to_list (media w)).

Definition page_of {A} (page page_size : Z) (l : list A) : list A :=
  take (Z.to_nat page_size) (drop (Z.to_nat ((page - 1) * page_size)) l).

(** Modelled from the spec: [searchMedia], a match of the query over file
    name, description and tags, scoped to the caller's own media; it returns
    the requested page and the total number of matches. *)
Definition find_media (user_id query : string) (page page_size : Z)
    (w : store) : outcome (list doc * Z) * store :=
  let matches :=
    List.filter
      (fun d =>
         field_contains query d "originalFileName"
         || field_contains query d "description"
         || tag_contains query d)
      (owned_media user_id w) in
  (Return (page_of page page_size matches, Z.of_nat (length matches)), w).

(** Modelled from the spec: [getUserMedia], the paginated listing of the
    caller's media with an optional type filter. *)
Definition user_media (user_id : string) (page page_size : Z)
    (media_type : option string) (w : store)
    : outcome (list doc * Z) * store :=
  let listed :=
    List.filter (has_media_type media_type) (owned_media user_id w) in
  (Return (page_of page page_size listed, Z.of_nat (length listed)), w).

#[export] Instance media_queries : MediaQueries store := {
  cosmos_db_search_media := find_media;
  cosmos_db_get_user_media := user_media
}.

(** A store whose queries are down. *)
Definition queries_down : MediaQueries store := {|
  cosmos_db_search_media := fun _ _ _ _ w =>
    (Raise (HTTPException 503 "Service unavailable"), w);
  cosmos_db_get_user_media := fun _ _ _ _ w =>
    (Raise (OtherError "connection reset"), w)
|}.

(** A document without the required [blobUrl]. *)
Definition broken_photo : doc := delete "blobUrl" stored_photo.

(** Faults to inject into the collaborators: an exception to raise from a
    call, or a key the store leaves out of the user it returns. *)
Record faults := {
  fault_fetch : option exn;
  fault_upload : option exn;
  fault_create_media : option exn;
  fault_update_media : option exn;
  fault_delete_media : option exn;
  fault_hash : option exn;
  fault_user_key : option string
}.

Definition no_faults : faults :=
  {| fault_fetch := None; fault_upload := None; fault_create_media := None;
     fault_update_media := None; fault_delete_media := None;
     fault_hash := None; fault_user_key := None |}.

Definition or_fault {A} (fault : option exn)
    (f : store -> outcome A * store) (w : store) : outcome A * store :=
  match fault with
  | Some e => (Raise e, w)
  | None => f w
  end.

(** The in-memory collaborators with faults injected. *)
Definition with_faults (f : faults) : Collaborators store := {|
  get_current_user_id := current_user_id;
  validate_file_type := file_type;
  validate_file_size := file_size;
  generate_thumbnail := thumbnail;
  json_loads := loads;
  blob_storage_upload_file := fun stream user_id file_name ctype =>
    or_fault (fault_upload f) (upload_file stream user_id file_name ctype);
  blob_storage_delete_file := delete_file;
  cosmos_db_create_media := fun payload =>
    or_fault (fault_create_media f) (create_media payload);
  cosmos_db_update_media := fun media_id user_id updates =>
    or_fault (fault_update_media f) (update_media media_id user_id updates);
  cosmos_db_delete_media := fun media_id user_id =>
    or_fault (fault_delete_media f) (remove_media media_id user_id);
  cosmos_db_get_user_by_email := get_user_by_email;
  cosmos_db_create_user := fun account w =>
    match fault_user_key f with
    | Some key =>
        (Return (delete key account), snd (create_user account w))
    | None => create_user account w
    end;
  fetch_and_verify_media_ownership := fun media_id user_id =>
    or_fault (fault_fetch f) (fetch_owned media_id user_id);
  extract_thumbnail_blob_identifier := thumbnail_blob;
  get_password_hash := fun password =>
    or_fault (fault_hash f) (password_hash password);
  verify_password := password_matches;
  create_access_token := access_token;
  uuid_uuid4 := uuid4;
  datetime_utcnow_isoformat := utcnow_isoformat
|}.

(** A stored user without [hashed_password]. *)
Definition carol : doc :=
  list_to_map [
    ("id", VStr "carol");
    ("username", VStr "Carol");
    ("email", VStr "carol@example.org");
    ("created_at", VStr "2023-12-31T00:00:00")].

Definition with_carol : store :=
  {| users := [carol]; media := ∅; blobs := ∅; unavailable := [];
     uuid_counter := 0; clock := 0 |}.

Definition clip : UploadFile :=
  {| filename := "v.mp4"; content_type := "video/mp4";
     file_data := [Byte.x00; Byte.x01] |}.

Definition carol_login : LoginRequest :=
  {| lr_email := "carol@example.org"; lr_password := "secret" |}.

(** A document without [fileName]. *)
Definition nameless_video : doc := delete "fileName" stored_video.

(** Alice's library with both documents damaged. *)
Definition damaged_library : store :=
  {| users := [alice];
     media := <[ "m1" := broken_photo ]> (<[ "m2" := nameless_video ]> ∅);
     blobs := ∅; unavailable := [];
     uuid_counter := 2; clock := 5 |}.

(** The document store refuses every write of a media record. *)
Definition media_writes_down : faults :=
  {| fault_fetch := None; fault_upload := None;
     fault_create_media := Some (OtherError "store unavailable");
     fault_update_media := Some (ValueError "Media not found");
     fault_delete_media := Some (OtherError "store unavailable");
     fault_hash := None; fault_user_key := None |}.

(** The hashing primitive rejects the password. *)
Definition hashing_rejects : faults :=
  {| fault_fetch := None; fault_upload := None; fault_create_media := None;
     fault_update_media := None; fault_delete_media := None;
     fault_hash := Some (ValueError "password is too long");
     fault_user_key := None |}.

(** The in-memory collaborators with a store that creates the user but
    returns it without the keys listed. *)
Definition forgetful_users (dropped : list string) : Collaborators store := {|
  get_current_user_id := current_user_id;
  validate_file_type := file_type;
  validate_file_size := file_size;
  generate_thumbnail := thumbnail;
  json_loads := loads;
  blob_storage_upload_file := upload_file;
  blob_storage_delete_file := delete_file;
  cosmos_db_create_media := create_media;
  cosmos_db_update_media := update_media;
  cosmos_db_delete_media := remove_media;
  cosmos_db_get_user_by_email := get_user_by_email;
  cosmos_db_create_user := fun account w =>
    (Return (foldr delete account dropped), snd (create_user account w));
  fetch_and_verify_media_ownership := fetch_owned;
  extract_thumbnail_blob_identifier := thumbnail_blob;
  get_password_hash := password_hash;
  verify_password := password_matches;
  create_access_token := access_token;
  uuid_uuid4 := uuid4;
  datetime_utcnow_isoformat := utcnow_isoformat
|}.

End InMemory.

(** * Properties of the handlers *)

(** Case analysis on the next collaborator result or test a handler waits
    for: the scrutinee of a [match] that contains no [match] itself. *)
Ltac destruct_scrutinee :=
  match goal with
  | |- context [match ?x with _ => _ end] =>
      lazymatch x with
      | context [match _ with _ => _ end] => fail
      | _ => destruct x eqn:?
      end
  end.

Section Upload.
Context {world : Type} `{Collaborators world}.

Lemma upload_type_rejected file description tags user_id w e :
  validate_file_type file = Raise e ->
  is_HTTPException e = true ->
  run (upload_media file description tags user_id) w
  = (Raise e, {| ext := w; calls := []; logs := [] |}).
Proof.
  intros Hty He. unfold run, upload_media, try_except, bind, lift.
  rewrite Hty. simpl. rewrite He. reflexivity.
Qed.

Lemma upload_size_rejected file description tags user_id w kind e :
  validate_file_type file = Return kind ->
  validate_file_size file = Raise e ->
  is_HTTPException e = true ->
  run (upload_media file description tags user_id) w
  = (Raise e, {| ext := w; calls := []; logs := [] |}).
Proof.
  intros Hty Hsz He. unfold run, upload_media, try_except, bind, lift.
  rewrite Hty, Hsz. simpl. rewrite He. reflexivity.
Qed.

(** C3: when the type validation or the size validation rejects the file
    with a BadRequest, [upload_media] raises that BadRequest and has made no
    collaborator call at all, so [blob_storage.upload_file] was never
    invoked; nothing was logged and the stores are untouched. *)
Theorem upload_rejected_before_blob_store
    file description tags user_id w detail :
  validate_file_type file
    = Raise (HTTPException HTTP_400_BAD_REQUEST detail)
  \/ (exists kind,
        validate_file_type file = Return kind
        /\ validate_file_size file
           = Raise (HTTPException HTTP_400_BAD_REQUEST detail)) ->
  run (upload_media file description tags user_id) w
  = (Raise (HTTPException HTTP_400_BAD_REQUEST detail),
     {| ext := w; calls := []; logs := [] |})
  /\ Forall (fun c => is_blob_upload c = false)
       (calls (snd (run (upload_media file description tags user_id) w))).
Proof.
  intros Hrejected.
  assert (run (upload_media file description tags user_id) w
          = (Raise (HTTPException HTTP_400_BAD_REQUEST detail),
             {| ext := w; calls := []; logs := [] |})) as Hrun.
  { destruct Hrejected as [Hty | (kind & Hty & Hsz)].
    - by apply upload_type_rejected.
    - by eapply upload_size_rejected. }
  split; [exact Hrun |]. rewrite Hrun. constructor.
Qed.

Lemma media_payload_userId file description user_id media_identifier
    timestamp_iso media_kind uploaded_size uploaded_name uploaded_url
    preview_url parsed_tags :
  media_payload_of file description user_id media_identifier timestamp_iso
    media_kind uploaded_size uploaded_name uploaded_url preview_url
    parsed_tags !! "userId" = Some (VStr user_id).
Proof. reflexivity. Qed.

Lemma media_payload_id file description user_id media_identifier
    timestamp_iso media_kind uploaded_size uploaded_name uploaded_url
    preview_url parsed_tags :
  media_payload_of file description user_id media_identifier timestamp_iso
    media_kind uploaded_size uploaded_name uploaded_url preview_url
    parsed_tags !! "id" = Some (VStr media_identifier).
Proof. reflexivity. Qed.

(** The calls [upload_media] adds to the trace: a record is persisted at
    most once, right after its identifier and timestamp were drawn. *)
Lemma upload_media_calls file description tags user_id s :
  exists new,
    calls (snd (upload_media file description tags user_id s))
    = (calls s ++ new)%list
    /\ forall payload,
        CallCreateMedia payload ∈ new ->
        exists before media_identifier timestamp_iso,
          new = (before ++ [CallUuid4 media_identifier;
                            CallUtcnow timestamp_iso;
                            CallCreateMedia payload])%list
          /\ payload !! "userId" = Some (VStr user_id)
          /\ payload !! "id" = Some (VStr media_identifier)
          /\ forall other, CallCreateMedia other ∉ before.
Proof.
  unfold upload_media, parse_tags, upload_thumbnail, try_except, bind,
    invoke, draw, lift, log, ret, raise.
  repeat (simpl; destruct_scrutinee; simplify_eq).
  all: simpl; rewrite <- ?app_assoc; simpl.
  all: first
    [ exists []; split; [by rewrite app_nil_r | by intros ? ?%elem_of_nil]
    | eexists; split; [reflexivity |] ].
  all: intros payload Hin; set_unfold in Hin; destruct_or?; simplify_eq.
  all: first [ eexists [_], _, _; split; [reflexivity |]
             | eexists [_; _], _, _; split; [reflexivity |] ].
  all: split; [apply media_payload_userId |].
  all: split; [apply media_payload_id |].
  all: intros other Hother; set_unfold in Hother; destruct_or?; simplify_eq.
Qed.

Lemma serve_machine {A} status (to_json : A -> value) (m : M world A) w :
  snd (serve status to_json m w) = snd (run m w).
Proof. unfold serve. by destruct (run m w). Qed.

Lemma serve_response {A} status (to_json : A -> value) (m : M world A) w :
  fst (serve status to_json m w) = respond status to_json (fst (run m w)).
Proof. unfold serve. by destruct (run m w). Qed.

(** C10: whenever a request to the upload route persists a media record,
    the caller was resolved from the request's credentials and the record's
    [userId] is that caller; the record's [id] is the identifier drawn from
    [uuid.uuid4()] just before, whatever the request holds; and no other
    record was persisted by the request. *)
Theorem persisted_media_owner_and_id
    authorization file description tags w payload :
  CallCreateMedia payload
    ∈ calls (snd (POST_media authorization file description tags w)) ->
  (exists user_id w',
      get_current_user_id authorization w = (Return user_id, w')
      /\ payload !! "userId" = Some (VStr user_id))
  /\ (exists before media_identifier timestamp_iso,
        calls (snd (POST_media authorization file description tags w))
        = (before ++ [CallUuid4 media_identifier; CallUtcnow timestamp_iso;
                      CallCreateMedia payload])%list
        /\ payload !! "id" = Some (VStr media_identifier)
        /\ forall other, CallCreateMedia other ∉ before).
Proof.
  unfold POST_media. rewrite serve_machine.
  unfold run, depends_current_user, bind, invoke. simpl.
  destruct (get_current_user_id authorization w)
    as [[user_id | e] w'] eqn:Hauth; simpl.
  2: { intros Hin. apply list_elem_of_singleton in Hin. discriminate. }
  destruct (upload_media_calls file description tags user_id
              {| ext := w'; calls := [CallGetCurrentUserId authorization];
                 logs := [] |}) as (new & Hcalls & Hnew).
  rewrite Hcalls. simpl. intros Hin.
  apply elem_of_cons in Hin as [Hin | Hin]; [discriminate |].
  destruct (Hnew payload Hin)
    as (before & media_identifier & timestamp_iso & -> & Hu & Hi & Hb).
  split; [by exists user_id, w' |].
  exists (CallGetCurrentUserId authorization :: before),
    media_identifier, timestamp_iso.
  split; [reflexivity |]. split; [done |].
  intros other Hother. apply elem_of_cons in Hother as [? | ?];
    [discriminate | by eapply Hb].
Qed.

(** A store that returns the record it persisted, possibly with fields of
    its own added, yields the response made of the payload's fields. *)
Lemma MediaResponse_init_persisted file description user_id media_identifier
    timestamp_iso media_kind uploaded_size uploaded_name uploaded_url
    preview_url parsed_tags (persisted : doc) :
  media_payload_of file description user_id media_identifier timestamp_iso
    media_kind uploaded_size uploaded_name uploaded_url preview_url
    parsed_tags ⊆ persisted ->
  MediaResponse_init persisted
  = Return {|
      mr_id := VStr media_identifier;
      mr_userId := VStr user_id;
      mr_fileName := VStr uploaded_name;
      mr_originalFileName := VStr (filename file);
      mr_mediaType := VStr media_kind;
      mr_fileSize := VInt uploaded_size;
      mr_mimeType := VStr (content_type file);
      mr_blobUrl := VStr uploaded_url;
      mr_thumbnailUrl := preview_url;
      mr_description := value_of_opt_str description;
      mr_tags := parsed_tags;
      mr_uploadedAt := VStr timestamp_iso;
      mr_updatedAt := VStr timestamp_iso
    |}.
Proof.
  intros Hsub.
  match type of Hsub with
  | ?payload ⊆ _ =>
      assert (forall k v, payload !! k = Some v -> persisted !! k = Some v)
        as Hw by (intros k v Hk; by eapply lookup_weaken)
  end.
  unfold MediaResponse_init, required_field, optional_field, and_then.
  rewrite (Hw "id" _ eq_refl), (Hw "userId" _ eq_refl),
    (Hw "fileName" _ eq_refl), (Hw "originalFileName" _ eq_refl),
    (Hw "mediaType" _ eq_refl), (Hw "fileSize" _ eq_refl),
    (Hw "mimeType" _ eq_refl), (Hw "blobUrl" _ eq_refl),
    (Hw "uploadedAt" _ eq_refl), (Hw "updatedAt" _ eq_refl),
    (Hw "thumbnailUrl" _ eq_refl), (Hw "description" _ eq_refl),
    (Hw "tags" _ eq_refl).
  reflexivity.
Qed.

(** The three ways out of the tags block. *)
Lemma parse_tags_accepted tags parsed_tags s :
  (truthy_str tags = false /\ parsed_tags = VNone)
  \/ (truthy_str tags = true
      /\ json_loads (default "" tags) = Return parsed_tags
      /\ isinstance_list parsed_tags = true) ->
  parse_tags tags s = (Return parsed_tags, s).
Proof.
  unfold parse_tags, try_except, bind, lift.
  intros [[-> ->] | (-> & -> & Hl)]; [done |]. simpl. by rewrite Hl.
Qed.

Lemma parse_tags_malformed tags msg s :
  truthy_str tags = true ->
  json_loads (default "" tags) = Raise (JSONDecodeError msg) ->
  parse_tags tags s
  = (Raise (HTTPException HTTP_400_BAD_REQUEST
              "Invalid tags format. Must be a JSON array."), s).
Proof.
  unfold parse_tags, try_except, bind, lift. by intros -> ->.
Qed.

Lemma parse_tags_not_a_list tags parsed_tags s :
  truthy_str tags = true ->
  json_loads (default "" tags) = Return parsed_tags ->
  isinstance_list parsed_tags = false ->
  parse_tags tags s = (Raise (ValueError "Tags must be an array"), s).
Proof.
  unfold parse_tags, try_except, bind, lift. intros -> -> Hl. simpl.
  by rewrite Hl.
Qed.

(** Tags that are not valid JSON: BadRequest, and nothing was called. *)
Lemma upload_tags_malformed file description tags user_id w kind size msg :
  validate_file_type file = Return kind ->
  validate_file_size file = Return size ->
  truthy_str tags = true ->
  json_loads (default "" tags) = Raise (JSONDecodeError msg) ->
  run (upload_media file description tags user_id) w
  = (Raise (HTTPException HTTP_400_BAD_REQUEST
              "Invalid tags format. Must be a JSON array."),
     {| ext := w; calls := []; logs := [] |}).
Proof.
  intros Hty Hsz Ht Hj. unfold run, upload_media, try_except, bind, lift.
  rewrite Hty, Hsz. simpl. by rewrite (parse_tags_malformed _ msg).
Qed.

(** Tags that are valid JSON but not an array: the [ValueError] raised in
    the tags block is not a [JSONDecodeError], so it reaches the outer
    [except Exception] clause and becomes an internal error. *)
Lemma upload_tags_not_a_list
    file description tags user_id w kind size parsed_tags :
  validate_file_type file = Return kind ->
  validate_file_size file = Return size ->
  truthy_str tags = true ->
  json_loads (default "" tags) = Return parsed_tags ->
  isinstance_list parsed_tags = false ->
  run (upload_media file description tags user_id) w
  = (Raise (HTTPException HTTP_500_INTERNAL_SERVER_ERROR
              "Failed to upload media: Tags must be an array"),
     {| ext := w; calls := [];
        logs := [LogRecord media_logger ERROR
                   "Upload error: Tags must be an array"] |}).
Proof.
  intros Hty Hsz Ht Hj Hl. unfold run, upload_media, try_except, bind, lift.
  rewrite Hty, Hsz. simpl. by rewrite (parse_tags_not_a_list _ parsed_tags).
Qed.

(** The run of an image upload whose thumbnail upload raises, from any
    state of the request. *)
Lemma thumbnail_upload_failure_run
    file description tags user_id (s : machine world) uploaded_size
    parsed_tags uploaded w1 preview_data e w2 media_identifier w3
    timestamp_iso w4 persisted w5 :
  validate_file_type file = Return "image" ->
  validate_file_size file = Return uploaded_size ->
  (truthy_str tags = false /\ parsed_tags = VNone)
  \/ (truthy_str tags = true
      /\ json_loads (default "" tags) = Return parsed_tags
      /\ isinstance_list parsed_tags = true) ->
  blob_storage_upload_file (file_data file) user_id (filename file)
    (content_type file) (ext s) = (Return uploaded, w1) ->
  generate_thumbnail (file_data file) = Return preview_data ->
  truthy_bytes preview_data = true ->
  blob_storage_upload_file (default [] preview_data) user_id
    ("thumb_" +:+ filename file) "image/jpeg" w1 = (Raise e, w2) ->
  uuid_uuid4 w2 = (media_identifier, w3) ->
  datetime_utcnow_isoformat w3 = (timestamp_iso, w4) ->
  cosmos_db_create_media
    (media_payload_of file description user_id media_identifier
       timestamp_iso "image" uploaded_size (fst uploaded) (snd uploaded)
       VNone parsed_tags) w4
  = (Return persisted, w5) ->
  media_payload_of file description user_id media_identifier timestamp_iso
    "image" uploaded_size (fst uploaded) (snd uploaded) VNone parsed_tags
    ⊆ persisted ->
  upload_media file description tags user_id s
  = (Return {|
       mr_id := VStr media_identifier;
       mr_userId := VStr user_id;
       mr_fileName := VStr (fst uploaded);
       mr_originalFileName := VStr (filename file);
       mr_mediaType := VStr "image";
       mr_fileSize := VInt uploaded_size;
       mr_mimeType := VStr (content_type file);
       mr_blobUrl := VStr (snd uploaded);
       mr_thumbnailUrl := VNone;
       mr_description := value_of_opt_str description;
       mr_tags := parsed_tags;
       mr_uploadedAt := VStr timestamp_iso;
       mr_updatedAt := VStr timestamp_iso
     |},
     {| ext := w5;
        calls :=
          (calls s ++ [
             CallBlobUpload (file_data file) user_id (filename file)
               (content_type file);
             CallBlobUpload (default [] preview_data) user_id
               ("thumb_" +:+ filename file) "image/jpeg";
             CallUuid4 media_identifier;
             CallUtcnow timestamp_iso;
             CallCreateMedia
               (media_payload_of file description user_id media_identifier
                  timestamp_iso "image" uploaded_size (fst uploaded)
                  (snd uploaded) VNone parsed_tags)])%list;
        logs :=
          (logs s ++ [LogRecord media_logger WARNING
                        ("Failed to upload thumbnail: " +:+ str_exn e)])%list
     |}).
Proof.
  intros Hty Hsz Htags Hup Hgen Htruthy Hthumb Hid Hnow Hcreate Hsub.
  unfold upload_media, upload_thumbnail, try_except, bind, lift, invoke, draw.
  rewrite Hty, Hsz. simpl.
  rewrite (parse_tags_accepted _ parsed_tags) by done. simpl.
  rewrite Hup, Hgen. simpl. rewrite Htruthy. simpl.
  rewrite Hthumb. simpl. rewrite Hid. simpl. rewrite Hnow. simpl.
  rewrite Hcreate. simpl.
  rewrite (MediaResponse_init_persisted _ _ _ _ _ _ _ _ _ _ _ _ Hsub).
  by rewrite <- !app_assoc.
Qed.

(** C4: an image upload whose thumbnail upload raises (any exception [e])
    still succeeds.  With the caller resolved, the validations passed, the
    tags accepted, the primary blob stored, a thumbnail generated and the
    store returning the record it persisted: the failure is logged as a
    warning; the record is persisted with [thumbnailUrl] set to [None]; the
    handler returns that record, every field as persisted and
    [thumbnailUrl] [None]; and the upload route answers 201 Created with
    the record as its body, [thumbnailUrl] null. *)
Theorem thumbnail_upload_failure_is_not_fatal
    authorization w0 file description tags user_id w uploaded_size
    parsed_tags uploaded w1 preview_data e w2 media_identifier w3
    timestamp_iso w4 persisted w5 :
  get_current_user_id authorization w0 = (Return user_id, w) ->
  validate_file_type file = Return "image" ->
  validate_file_size file = Return uploaded_size ->
  (truthy_str tags = false /\ parsed_tags = VNone)
  \/ (truthy_str tags = true
      /\ json_loads (default "" tags) = Return parsed_tags
      /\ isinstance_list parsed_tags = true) ->
  blob_storage_upload_file (file_data file) user_id (filename file)
    (content_type file) w = (Return uploaded, w1) ->
  generate_thumbnail (file_data file) = Return preview_data ->
  truthy_bytes preview_data = true ->
  blob_storage_upload_file (default [] preview_data) user_id
    ("thumb_" +:+ filename file) "image/jpeg" w1 = (Raise e, w2) ->
  uuid_uuid4 w2 = (media_identifier, w3) ->
  datetime_utcnow_isoformat w3 = (timestamp_iso, w4) ->
  cosmos_db_create_media
    (media_payload_of file description user_id media_identifier
       timestamp_iso "image" uploaded_size (fst uploaded) (snd uploaded)
       VNone parsed_tags) w4
  = (Return persisted, w5) ->
  media_payload_of file description user_id media_identifier timestamp_iso
    "image" uploaded_size (fst uploaded) (snd uploaded) VNone parsed_tags
    ⊆ persisted ->
  run (upload_media file description tags user_id) w
  = (Return {|
       mr_id := VStr media_identifier;
       mr_userId := VStr user_id;
       mr_fileName := VStr (fst uploaded);
       mr_originalFileName := VStr (filename file);
       mr_mediaType := VStr "image";
       mr_fileSize := VInt uploaded_size;
       mr_mimeType := VStr (content_type file);
       mr_blobUrl := VStr (snd uploaded);
       mr_thumbnailUrl := VNone;
       mr_description := value_of_opt_str description;
       mr_tags := parsed_tags;
       mr_uploadedAt := VStr timestamp_iso;
       mr_updatedAt := VStr timestamp_iso
     |},
     {| ext := w5;
        calls := [
          CallBlobUpload (file_data file) user_id (filename file)
            (content_type file);
          CallBlobUpload (default [] preview_data) user_id
            ("thumb_" +:+ filename file) "image/jpeg";
          CallUuid4 media_identifier;
          CallUtcnow timestamp_iso;
          CallCreateMedia
            (media_payload_of file description user_id media_identifier
               timestamp_iso "image" uploaded_size (fst uploaded)
               (snd uploaded) VNone parsed_tags)];
        logs := [LogRecord media_logger WARNING
                   ("Failed to upload thumbnail: " +:+ str_exn e)] |})
  /\ media_payload_of file description user_id media_identifier
       timestamp_iso "image" uploaded_size (fst uploaded) (snd uploaded)
       VNone parsed_tags !! "thumbnailUrl" = Some VNone
  /\ POST_media authorization file description tags w0
     = ({| http_status := 201;
           http_body :=
             VDict [("id", VStr media_identifier);
                    ("userId", VStr user_id);
                    ("fileName", VStr (fst uploaded));
                    ("originalFileName", VStr (filename file));
                    ("mediaType", VStr "image");
                    ("fileSize", VInt uploaded_size);
                    ("mimeType", VStr (content_type file));
                    ("blobUrl", VStr (snd uploaded));
                    ("thumbnailUrl", VNone);
                    ("description", value_of_opt_str description);
                    ("tags", parsed_tags);
                    ("uploadedAt", VStr timestamp_iso);
                    ("updatedAt", VStr timestamp_iso)] |},
        {| ext := w5;
           calls := [
             CallGetCurrentUserId authorization;
             CallBlobUpload (file_data file) user_id (filename file)
               (content_type file);
             CallBlobUpload (default [] preview_data) user_id
               ("thumb_" +:+ filename file) "image/jpeg";
             CallUuid4 media_identifier;
             CallUtcnow timestamp_iso;
             CallCreateMedia
               (media_payload_of file description user_id media_identifier
                  timestamp_iso "image" uploaded_size (fst uploaded)
                  (snd uploaded) VNone parsed_tags)];
           logs := [LogRecord media_logger WARNING
                      ("Failed to upload thumbnail: " +:+ str_exn e)] |}).
Proof.
  intros Hauth Hty Hsz Htags Hup Hgen Htruthy Hthumb Hid Hnow Hcreate Hsub.
  split; [| split; [reflexivity |]].
  - unfold run.
    by rewrite (thumbnail_upload_failure_run file description tags user_id
                  {| ext := w; calls := []; logs := [] |} uploaded_size
                  parsed_tags uploaded w1 preview_data e w2 media_identifier
                  w3 timestamp_iso w4 persisted w5).
  - unfold POST_media, serve, run, depends_current_user, bind, invoke. simpl.
    rewrite Hauth.
    by rewrite (thumbnail_upload_failure_run file description tags user_id
                  {| ext := w; calls := [CallGetCurrentUserId authorization];
                     logs := [] |} uploaded_size
                  parsed_tags uploaded w1 preview_data e w2 media_identifier
                  w3 timestamp_iso w4 persisted w5).
Qed.
End Upload.

Section Update.
Context {world : Type} `{Collaborators world}.

Lemma update_payload_updatedAt now update_data :
  update_payload_of now update_data !! "updatedAt" = Some (VStr now).
Proof.
  unfold update_payload_of.
  destruct (mu_description update_data), (mu_tags update_data);
    by simplify_map_eq.
Qed.

Lemma update_payload_description now update_data :
  update_payload_of now update_data !! "description"
  = VStr <$> mu_description update_data.
Proof.
  unfold update_payload_of.
  destruct (mu_description update_data), (mu_tags update_data);
    by simplify_map_eq.
Qed.

Lemma update_payload_tags now update_data :
  update_payload_of now update_data !! "tags"
  = (fun tags => VList (VStr <$> tags)) <$> mu_tags update_data.
Proof.
  unfold update_payload_of.
  destruct (mu_description update_data), (mu_tags update_data);
    by simplify_map_eq.
Qed.

Lemma update_payload_other now update_data key :
  key ≠ "updatedAt" -> key ≠ "description" -> key ≠ "tags" ->
  update_payload_of now update_data !! key = None.
Proof.
  intros. unfold update_payload_of.
  destruct (mu_description update_data), (mu_tags update_data);
    by simplify_map_eq.
Qed.

(** C5: a successful update of an owned record, on a store that writes the
    given fields over the stored record.  The handler asks the store to
    change [updatedAt] and exactly the fields the request provides; in the
    updated record [updatedAt] is the new timestamp, a provided
    [description] or [tags] has the new value, an omitted one keeps the
    stored value, and every other field, among them [id], [userId],
    [fileName], [originalFileName], [mediaType], [fileSize], [mimeType],
    [blobUrl], [thumbnailUrl] and [uploadedAt], is unchanged. *)
Theorem update_changes_only_provided_fields
    media_id update_data user_id w existing w1 now w2 w3 response :
  fetch_and_verify_media_ownership media_id user_id w
    = (Return existing, w1) ->
  datetime_utcnow_isoformat w1 = (now, w2) ->
  cosmos_db_update_media media_id user_id
    (update_payload_of now update_data) w2
    = (Return (update_payload_of now update_data ∪ existing), w3) ->
  MediaResponse_init (update_payload_of now update_data ∪ existing)
    = Return response ->
  run (update_media_metadata media_id update_data user_id) w
  = (Return response,
     {| ext := w3;
        calls := [CallFetchOwned media_id user_id;
                  CallUtcnow now;
                  CallUpdateMedia media_id user_id
                    (update_payload_of now update_data)];
        logs := [] |})
  /\ (forall key,
        is_Some (update_payload_of now update_data !! key) <->
        key = "updatedAt"
        \/ (key = "description" /\ is_Some (mu_description update_data))
        \/ (key = "tags" /\ is_Some (mu_tags update_data)))
  /\ (update_payload_of now update_data ∪ existing) !! "updatedAt"
     = Some (VStr now)
  /\ (update_payload_of now update_data ∪ existing) !! "description"
     = match mu_description update_data with
       | Some description => Some (VStr description)
       | None => existing !! "description"
       end
  /\ (update_payload_of now update_data ∪ existing) !! "tags"
     = match mu_tags update_data with
       | Some tags => Some (VList (VStr <$> tags))
       | None => existing !! "tags"
       end
  /\ (forall key,
        key ≠ "updatedAt" -> key ≠ "description" -> key ≠ "tags" ->
        (update_payload_of now update_data ∪ existing) !! key
        = existing !! key)
  /\ Forall
       (fun key =>
          (update_payload_of now update_data ∪ existing) !! key
          = existing !! key)
       ["id"; "userId"; "fileName"; "originalFileName"; "mediaType";
        "fileSize"; "mimeType"; "blobUrl"; "thumbnailUrl"; "uploadedAt"].
Proof.
  intros Hfetch Hnow Hupdate Hresp.
  assert (forall key,
            key ≠ "updatedAt" -> key ≠ "description" -> key ≠ "tags" ->
            (update_payload_of now update_data ∪ existing) !! key
            = existing !! key) as Hframe.
  { intros key ? ? ?. rewrite lookup_union_r; [done |].
    by apply update_payload_other. }
  split; [| split; [| split; [| split; [| split; [| split]]]]].
  - unfold run, update_media_metadata, try_except, bind, lift, invoke, draw.
    simpl. rewrite Hfetch. simpl. rewrite Hnow. simpl. rewrite Hupdate.
    simpl. by rewrite Hresp.
  - intros key. split.
    + intros Hsome.
      destruct (decide (key = "updatedAt")) as [-> | ?]; [by left |].
      destruct (decide (key = "description")) as [-> | ?].
      { right; left. split; [done |].
        rewrite update_payload_description in Hsome.
        by apply fmap_is_Some in Hsome. }
      destruct (decide (key = "tags")) as [-> | ?].
      { right; right. split; [done |].
        rewrite update_payload_tags in Hsome.
        by apply fmap_is_Some in Hsome. }
      rewrite update_payload_other in Hsome by done.
      by destruct Hsome.
    + intros [-> | [[-> Hsome] | [-> Hsome]]].
      * by rewrite update_payload_updatedAt.
      * rewrite update_payload_description. by apply fmap_is_Some.
      * rewrite update_payload_tags. by apply fmap_is_Some.
  - apply lookup_union_Some_l, update_payload_updatedAt.
  - destruct (mu_description update_data) as [description |] eqn:Hd.
    + apply lookup_union_Some_l.
      by rewrite update_payload_description, Hd.
    + rewrite lookup_union_r; [done |].
      by rewrite update_payload_description, Hd.
  - destruct (mu_tags update_data) as [tags |] eqn:Ht.
    + apply lookup_union_Some_l. by rewrite update_payload_tags, Ht.
    + rewrite lookup_union_r; [done |].
      by rewrite update_payload_tags, Ht.
  - exact Hframe.
  - repeat constructor; by apply Hframe.
Qed.
End Update.

Section Delete.
Context {world : Type} `{Collaborators world}.


(** C7: deleting an owned record with no thumbnail recorded (the thumbnail
    identifier extracted from the record is [None] or empty).  Whatever the
    collaborators answer, at most one blob delete is attempted; and when
    the primary blob is deleted and the store accepts the delete, the
    calls are exactly: the ownership check, the delete of the primary blob,
    the delete of the metadata record. *)
Theorem delete_without_thumbnail_single_blob_delete
    media_id user_id w media_record w1 preview_blob_id :
  fetch_and_verify_media_ownership media_id user_id w
    = (Return media_record, w1) ->
  extract_thumbnail_blob_identifier media_record = Return preview_blob_id ->
  truthy_str preview_blob_id = false ->
  (length (filter is_blob_delete
             (calls (snd (run (delete_media media_id user_id) w)))) <= 1)%nat
  /\ (forall primary_blob w2 w3,
        media_record !! "fileName" = Some primary_blob ->
        blob_storage_delete_file primary_blob w1 = (Return tt, w2) ->
        cosmos_db_delete_media media_id user_id w2 = (Return tt, w3) ->
        run (delete_media media_id user_id) w
        = (Return tt,
           {| ext := w3;
              calls := [CallFetchOwned media_id user_id;
                        CallBlobDelete primary_blob;
                        CallDeleteMedia media_id user_id];
              logs := [] |})).
Proof.
  intros Hfetch Hextract Hfalsy. split.
  - unfold run, delete_media, subscript, try_except, bind, lift, invoke,
      log, ret, raise.
    simpl. rewrite Hfetch. simpl. rewrite Hextract, Hfalsy.
    repeat (simpl; destruct_scrutinee; simplify_eq); simpl; lia.
  - intros primary_blob w2 w3 Hname Hprimary Hdb.
    unfold run, delete_media, subscript, try_except, bind, lift, invoke.
    simpl. rewrite Hfetch. simpl. rewrite Hname. simpl.
    rewrite Hprimary. simpl. rewrite Hextract, Hfalsy. simpl.
    by rewrite Hdb.
Qed.
End Delete.

Section Auth.
Context {world : Type} `{Collaborators world}.

Lemma login_unknown_email credentials_payload w unknown w' :
  cosmos_db_get_user_by_email (lr_email credentials_payload) w
    = (Return unknown, w') ->
  truthy_doc unknown = false ->
  run (login_account credentials_payload) w
  = (Raise (HTTPException HTTP_401_UNAUTHORIZED "Invalid email or password"),
     {| ext := w';
        calls := [CallGetUserByEmail (lr_email credentials_payload)];
        logs := [
          LogRecord auth_logger INFO
            ("Login attempt for email: " +:+ lr_email credentials_payload);
          LogRecord auth_logger WARNING
            ("Login failed: User not found for email "
               +:+ lr_email credentials_payload)] |}).
Proof.
  intros Hget Hfalsy.
  unfold run, login_account, try_except, bind, invoke, log. simpl.
  rewrite Hget. simpl. by rewrite Hfalsy.
Qed.

Lemma login_wrong_password
    credentials_payload w account_record w' stored_hash :
  cosmos_db_get_user_by_email (lr_email credentials_payload) w
    = (Return (Some account_record), w') ->
  truthy_doc (Some account_record) = true ->
  account_record !! "hashed_password" = Some stored_hash ->
  verify_password (lr_password credentials_payload) stored_hash
    = Return false ->
  run (login_account credentials_payload) w
  = (Raise (HTTPException HTTP_401_UNAUTHORIZED "Invalid email or password"),
     {| ext := w';
        calls := [CallGetUserByEmail (lr_email credentials_payload)];
        logs := [
          LogRecord auth_logger INFO
            ("Login attempt for email: " +:+ lr_email credentials_payload);
          LogRecord auth_logger WARNING
            ("Login failed: Invalid password for email "
               +:+ lr_email credentials_payload)] |}).
Proof.
  intros Hget Htruthy Hhash Hverify.
  unfold run, login_account, subscript_opt, subscript, try_except, bind,
    invoke, log, lift.
  simpl. rewrite Hget. simpl. rewrite Htruthy. simpl. rewrite Hhash. simpl.
  by rewrite Hverify.
Qed.

(** C2: a login that fails because no user has the email and a login that
    fails because the password does not verify against the stored hash
    raise the same [HTTPException]: 401 with the detail
    "Invalid email or password".  The HTTP responses are equal. *)
Theorem login_failures_indistinguishable
    unknown_credentials w1 unknown w1'
    wrong_credentials w2 account_record w2' stored_hash :
  cosmos_db_get_user_by_email (lr_email unknown_credentials) w1
    = (Return unknown, w1') ->
  truthy_doc unknown = false ->
  cosmos_db_get_user_by_email (lr_email wrong_credentials) w2
    = (Return (Some account_record), w2') ->
  truthy_doc (Some account_record) = true ->
  account_record !! "hashed_password" = Some stored_hash ->
  verify_password (lr_password wrong_credentials) stored_hash
    = Return false ->
  fst (run (login_account unknown_credentials) w1)
  = Raise (HTTPException HTTP_401_UNAUTHORIZED "Invalid email or password")
  /\ fst (run (login_account wrong_credentials) w2)
     = Raise (HTTPException HTTP_401_UNAUTHORIZED
                "Invalid email or password")
  /\ fst (POST_auth_login unknown_credentials w1)
     = fst (POST_auth_login wrong_credentials w2)
  /\ fst (POST_auth_login unknown_credentials w1)
     = {| http_status := 401;
          http_body := VDict [("detail", VStr "Invalid email or password")] |}.
Proof.
  intros Hget1 Hfalsy Hget2 Htruthy Hhash Hverify.
  pose proof (login_unknown_email _ _ _ _ Hget1 Hfalsy) as Hrun1.
  pose proof (login_wrong_password _ _ _ _ _ Hget2 Htruthy Hhash Hverify)
    as Hrun2.
  unfold POST_auth_login, serve. rewrite Hrun1, Hrun2. by repeat split.
Qed.

(** C8, as the code has it: registering an email that already belongs to a
    user fails with BadRequest (400) and the detail
    "User with this email already exists".  The only collaborator call is
    the lookup by email: no user is created, no password hashed and no
    token issued. *)
Theorem register_existing_email_is_bad_request
    account_payload w existing_account w' :
  cosmos_db_get_user_by_email (uc_email account_payload) w
    = (Return existing_account, w') ->
  truthy_doc existing_account = true ->
  run (register_account account_payload) w
  = (Raise (HTTPException HTTP_400_BAD_REQUEST
              "User with this email already exists"),
     {| ext := w';
        calls := [CallGetUserByEmail (uc_email account_payload)];
        logs := [
          LogRecord auth_logger INFO
            ("Registration attempt for email: "
               +:+ uc_email account_payload);
          LogRecord auth_logger WARNING
            ("Registration failed: Email already exists "
               +:+ uc_email account_payload)] |})
  /\ fst (POST_auth_register account_payload w)
     = {| http_status := 400;
          http_body :=
            VDict [("detail",
                    VStr "User with this email already exists")] |}.
Proof.
  intros Hget Htruthy.
  assert (run (register_account account_payload) w
          = (Raise (HTTPException HTTP_400_BAD_REQUEST
                      "User with this email already exists"),
             {| ext := w';
                calls := [CallGetUserByEmail (uc_email account_payload)];
                logs := [
                  LogRecord auth_logger INFO
                    ("Registration attempt for email: "
                       +:+ uc_email account_payload);
                  LogRecord auth_logger WARNING
                    ("Registration failed: Email already exists "
                       +:+ uc_email account_payload)] |})) as Hrun.
  { unfold run, register_account, try_except, bind, invoke, log. simpl.
    rewrite Hget. simpl. by rewrite Htruthy. }
  split; [exact Hrun |].
  unfold POST_auth_register, serve. by rewrite Hrun.
Qed.

(** Whatever a handler returns or raises, the body sent has no member for
    the hashed password, at the top level or in its [user] object. *)
Lemma token_response_no_password_member status (o : outcome Token) :
  no_password_member (http_body (respond status Token_json o))
  /\ forall user,
      json_get (http_body (respond status Token_json o)) "user" = Some user ->
      no_password_member user.
Proof.
  destruct o as [token | e]; simpl.
  - split; [done |]. by intros user [= <-].
  - destruct e; by split.
Qed.

Lemma user_json_keys user :
  json_keys (UserResponse_json user)
  = ["id"; "username"; "email"; "createdAt"]
  /\ json_get (UserResponse_json user) "hashed_password" = None
  /\ json_get (UserResponse_json user) "hashedPassword" = None.
Proof. by repeat split. Qed.

Lemma register_success account_payload w token s :
  run (register_account account_payload) w = (Return token, s) ->
  exists account_doc w1 persisted_user w2,
    cosmos_db_create_user account_doc w1 = (Return persisted_user, w2)
    /\ persisted_user !! "id" = Some (ur_id (tk_user token))
    /\ persisted_user !! "username" = Some (ur_username (tk_user token))
    /\ persisted_user !! "email" = Some (ur_email (tk_user token))
    /\ persisted_user !! "created_at" = Some (ur_createdAt (tk_user token)).
Proof.
  unfold run, register_account, subscript, try_except, bind, invoke, draw,
    log, lift, ret, raise.
  repeat (simpl; destruct_scrutinee; simplify_eq).
  all: simpl; intros; simplify_eq.
  simpl. eauto 10.
Qed.

Lemma login_success credentials_payload w token s :
  run (login_account credentials_payload) w = (Return token, s) ->
  exists account_record w1,
    cosmos_db_get_user_by_email (lr_email credentials_payload) w
      = (Return (Some account_record), w1)
    /\ account_record !! "id" = Some (ur_id (tk_user token))
    /\ account_record !! "username" = Some (ur_username (tk_user token))
    /\ account_record !! "email" = Some (ur_email (tk_user token))
    /\ account_record !! "created_at" = Some (ur_createdAt (tk_user token)).
Proof.
  unfold run, login_account, subscript_opt, subscript, try_except, bind,
    invoke, draw, log, lift, ret, raise.
  repeat (simpl; destruct_scrutinee; simplify_eq).
  all: simpl; intros; simplify_eq.
  simpl. eauto 10.
Qed.

(** C9: every successful register and every successful login answers 200
    with a body made of [token] and [user], and the [user] object has
    exactly the keys [id], [username], [email], [createdAt], in particular
    no key for the hashed password.  Their values are the [id],
    [username], [email] and [created_at] of the stored user: the record the
    store returned from [create_user] on register, the record found by
    email on login.  In every response of the two routes, failures included,
    no object of the body has a member for the hashed password. *)
Theorem auth_response_user_has_four_fields :
  (forall account_payload w token s,
      run (register_account account_payload) w = (Return token, s) ->
      fst (POST_auth_register account_payload w)
      = {| http_status := 200;
           http_body :=
             VDict [("token", VStr (tk_token token));
                    ("user", UserResponse_json (tk_user token))] |}
      /\ json_keys (UserResponse_json (tk_user token))
         = ["id"; "username"; "email"; "createdAt"]
      /\ json_get (UserResponse_json (tk_user token)) "hashed_password"
         = None
      /\ json_get (UserResponse_json (tk_user token)) "hashedPassword"
         = None
      /\ exists account_doc w1 persisted_user w2,
          cosmos_db_create_user account_doc w1 = (Return persisted_user, w2)
          /\ persisted_user !! "id" = Some (ur_id (tk_user token))
          /\ persisted_user !! "username"
             = Some (ur_username (tk_user token))
          /\ persisted_user !! "email" = Some (ur_email (tk_user token))
          /\ persisted_user !! "created_at"
             = Some (ur_createdAt (tk_user token)))
  /\ (forall credentials_payload w token s,
        run (login_account credentials_payload) w = (Return token, s) ->
        fst (POST_auth_login credentials_payload w)
        = {| http_status := 200;
             http_body :=
               VDict [("token", VStr (tk_token token));
                      ("user", UserResponse_json (tk_user token))] |}
        /\ json_keys (UserResponse_json (tk_user token))
           = ["id"; "username"; "email"; "createdAt"]
        /\ json_get (UserResponse_json (tk_user token)) "hashed_password"
           = None
        /\ json_get (UserResponse_json (tk_user token)) "hashedPassword"
           = None
        /\ exists account_record w1,
            cosmos_db_get_user_by_email (lr_email credentials_payload) w
              = (Return (Some account_record), w1)
            /\ account_record !! "id" = Some (ur_id (tk_user token))
            /\ account_record !! "username"
               = Some (ur_username (tk_user token))
            /\ account_record !! "email" = Some (ur_email (tk_user token))
            /\ account_record !! "created_at"
               = Some (ur_createdAt (tk_user token)))
  /\ (forall account_payload w,
        no_password_member
          (http_body (fst (POST_auth_register account_payload w)))
        /\ forall user,
            json_get (http_body (fst (POST_auth_register account_payload w)))
              "user" = Some user ->
            no_password_member user)
  /\ (forall credentials_payload w,
        no_password_member
          (http_body (fst (POST_auth_login credentials_payload w)))
        /\ forall user,
            json_get (http_body (fst (POST_auth_login credentials_payload w)))
              "user" = Some user ->
            no_password_member user).
Proof.
  split; [| split; [| split]].
  3: { intros account_payload w. unfold POST_auth_register.
       rewrite serve_response. apply token_response_no_password_member. }
  3: { intros credentials_payload w. unfold POST_auth_login.
       rewrite serve_response. apply token_response_no_password_member. }
  - intros account_payload w token s Hrun.
    split; [by unfold POST_auth_register, serve; rewrite Hrun |].
    destruct (user_json_keys (tk_user token)) as (Hkeys & Hh1 & Hh2).
    repeat (split; [done |]). by eapply register_success.
  - intros credentials_payload w token s Hrun.
    split; [by unfold POST_auth_login, serve; rewrite Hrun |].
    destruct (user_json_keys (tk_user token)) as (Hkeys & Hh1 & Hh2).
    repeat (split; [done |]). by eapply login_success.
Qed.
End Auth.

(** * The handlers on concrete requests *)

(** ** Every failure of a handler is an [HTTPException] *)

Section ErrorSurface.
Context {world : Type} `{Collaborators world} `{MediaQueries world}.

(** Split a handler's [try] on what its body did. *)
Ltac on_body_outcome :=
  unfold try_except;
  match goal with
  | |- context [match ?body ?s with _ => _ end] =>
      destruct (body s) as [[? | []] ?]
  end;
  unfold bind, log, raise; simpl; intros; simplify_eq; eauto.

(** X1: no handler lets an exception other than an [HTTPException] out.
    Whatever the collaborators raise (a [KeyError] of a missing key, a
    [ValueError], an error of the stores), each of the eight handlers either
    returns or raises an [HTTPException]. *)
Theorem handlers_raise_only_HTTPException :
  (forall account_payload s e s',
      register_account account_payload s = (Raise e, s') ->
      exists status detail, e = HTTPException status detail)
  /\ (forall credentials_payload s e s',
        login_account credentials_payload s = (Raise e, s') ->
        exists status detail, e = HTTPException status detail)
  /\ (forall file description tags user_id s e s',
        upload_media file description tags user_id s = (Raise e, s') ->
        exists status detail, e = HTTPException status detail)
  /\ (forall query page pageSize user_id s e s',
        search_media query page pageSize user_id s = (Raise e, s') ->
        exists status detail, e = HTTPException status detail)
  /\ (forall page pageSize mediaType user_id s e s',
        get_media_list page pageSize mediaType user_id s = (Raise e, s') ->
        exists status detail, e = HTTPException status detail)
  /\ (forall media_id user_id s e s',
        get_media_by_id media_id user_id s = (Raise e, s') ->
        exists status detail, e = HTTPException status detail)
  /\ (forall media_id update_data user_id s e s',
        update_media_metadata media_id update_data user_id s = (Raise e, s') ->
        exists status detail, e = HTTPException status detail)
  /\ (forall media_id user_id s e s',
        delete_media media_id user_id s = (Raise e, s') ->
        exists status detail, e = HTTPException status detail).
Proof.
  repeat split; intros until s.
  - unfold register_account. on_body_outcome.
  - unfold login_account. on_body_outcome.
  - unfold upload_media. on_body_outcome.
  - unfold search_media. on_body_outcome.
  - unfold get_media_list. on_body_outcome.
  - unfold get_media_by_id. on_body_outcome.
  - unfold update_media_metadata. on_body_outcome.
  - unfold delete_media. on_body_outcome.
Qed.
End ErrorSurface.

(** ** More on [upload_media] *)

Section UploadPaths.
Context {world : Type} `{Collaborators world}.

(** X2: on every path [upload_media] never deletes a blob and uploads at
    most two blobs; when the file is not classified as an image it uploads
    at most one. *)
Theorem upload_blob_calls_bounded file description tags user_id w :
  Forall (fun c => is_blob_delete c = false)
    (calls (snd (run (upload_media file description tags user_id) w)))
  /\ (length (filter is_blob_upload
                (calls (snd (run (upload_media file description tags
                                   user_id) w)))) <= 2)%nat
  /\ (validate_file_type file <> Return "image" ->
      (length (filter is_blob_upload
                 (calls (snd (run (upload_media file description tags
                                    user_id) w)))) <= 1)%nat).
Proof.
  split; [| split; [| intros Hkind]].
  all: unfold run, upload_media, parse_tags, upload_thumbnail, try_except,
    bind, invoke, draw, lift, log, ret, raise.
  all: repeat (simpl; destruct_scrutinee; simplify_eq).
  all: simpl; try (repeat constructor; fail); try lia.
  all: exfalso; apply Hkind; f_equal; by apply String.eqb_eq.
Qed.

(** X3: when the blob store fails on the primary upload, nothing else is
    called and no record is created.  An [HTTPException] of the blob store
    is passed on; any other exception is logged and becomes a 500 whose
    detail carries the exception's text. *)
Theorem upload_primary_blob_failure
    file description tags user_id w media_kind uploaded_size parsed_tags
    e w1 :
  validate_file_type file = Return media_kind ->
  validate_file_size file = Return uploaded_size ->
  (truthy_str tags = false /\ parsed_tags = VNone)
  \/ (truthy_str tags = true
      /\ json_loads (default "" tags) = Return parsed_tags
      /\ isinstance_list parsed_tags = true) ->
  blob_storage_upload_file (file_data file) user_id (filename file)
    (content_type file) w = (Raise e, w1) ->
  run (upload_media file description tags user_id) w
  = (Raise
       (if is_HTTPException e then e
        else HTTPException HTTP_500_INTERNAL_SERVER_ERROR
               ("Failed to upload media: " +:+ str_exn e)),
     {| ext := w1;
        calls := [CallBlobUpload (file_data file) user_id (filename file)
                    (content_type file)];
        logs :=
          if is_HTTPException e then []
          else [LogRecord media_logger ERROR
                  ("Upload error: " +:+ str_exn e)] |}).
Proof.
  intros Hty Hsz Htags Hup.
  unfold run, upload_media, try_except, bind, lift, invoke.
  rewrite Hty, Hsz. simpl.
  rewrite (parse_tags_accepted _ parsed_tags) by done. simpl.
  rewrite Hup. simpl. by destruct (is_HTTPException e).
Qed.

(** X4: an upload that generates no thumbnail, because the file is not an
    image or because [generate_thumbnail] gave nothing.  With the store
    returning the record it persisted, the upload succeeds after a single
    blob upload and the record and the response have [thumbnailUrl] set to
    [None]. *)
Theorem upload_without_thumbnail
    file description tags user_id w media_kind uploaded_size parsed_tags
    uploaded w1 preview_data media_identifier w2 timestamp_iso w3
    persisted w4 :
  validate_file_type file = Return media_kind ->
  validate_file_size file = Return uploaded_size ->
  (truthy_str tags = false /\ parsed_tags = VNone)
  \/ (truthy_str tags = true
      /\ json_loads (default "" tags) = Return parsed_tags
      /\ isinstance_list parsed_tags = true) ->
  blob_storage_upload_file (file_data file) user_id (filename file)
    (content_type file) w = (Return uploaded, w1) ->
  String.eqb media_kind "image" = false
  \/ (generate_thumbnail (file_data file) = Return preview_data
      /\ truthy_bytes preview_data = false) ->
  uuid_uuid4 w1 = (media_identifier, w2) ->
  datetime_utcnow_isoformat w2 = (timestamp_iso, w3) ->
  cosmos_db_create_media
    (media_payload_of file description user_id media_identifier
       timestamp_iso media_kind uploaded_size (fst uploaded) (snd uploaded)
       VNone parsed_tags) w3
  = (Return persisted, w4) ->
  media_payload_of file description user_id media_identifier timestamp_iso
    media_kind uploaded_size (fst uploaded) (snd uploaded) VNone parsed_tags
    ⊆ persisted ->
  exists response,
    run (upload_media file description tags user_id) w
    = (Return response,
       {| ext := w4;
          calls := [
            CallBlobUpload (file_data file) user_id (filename file)
              (content_type file);
            CallUuid4 media_identifier;
            CallUtcnow timestamp_iso;
            CallCreateMedia
              (media_payload_of file description user_id media_identifier
                 timestamp_iso media_kind uploaded_size (fst uploaded)
                 (snd uploaded) VNone parsed_tags)];
          logs := [] |})
    /\ mr_thumbnailUrl response = VNone
    /\ mr_mediaType response = VStr media_kind.
Proof.
  intros Hty Hsz Htags Hup Hnothumb Hid Hnow Hcreate Hsub.
  eexists. split.
  { unfold run, upload_media, upload_thumbnail, try_except, bind, lift,
      invoke, draw.
    rewrite Hty, Hsz. simpl.
    rewrite (parse_tags_accepted _ parsed_tags) by done. simpl.
    rewrite Hup. simpl.
    destruct Hnothumb as [-> | [Hgen Hfalsy]].
    - simpl. rewrite Hid. simpl. rewrite Hnow. simpl. rewrite Hcreate. simpl.
      by rewrite (MediaResponse_init_persisted _ _ _ _ _ _ _ _ _ _ _ _ Hsub).
    - rewrite Hgen. simpl. rewrite Hfalsy.
      destruct (String.eqb media_kind "image"); simpl.
      all: rewrite Hid; simpl; rewrite Hnow; simpl; rewrite Hcreate; simpl.
      all: by rewrite
             (MediaResponse_init_persisted _ _ _ _ _ _ _ _ _ _ _ _ Hsub). }
  by split.
Qed.

(** X5: when the document store fails to persist the record of a file
    without thumbnail, the blob uploaded before stays where it is: the
    handler fails (the store's [HTTPException] passed on, anything else a
    500 with the exception's text) and its last call is the failed
    [create_media]. *)
Theorem upload_persist_failure_leaves_blob
    file description tags user_id w media_kind uploaded_size parsed_tags
    uploaded w1 media_identifier w2 timestamp_iso w3 e w4 :
  validate_file_type file = Return media_kind ->
  String.eqb media_kind "image" = false ->
  validate_file_size file = Return uploaded_size ->
  (truthy_str tags = false /\ parsed_tags = VNone)
  \/ (truthy_str tags = true
      /\ json_loads (default "" tags) = Return parsed_tags
      /\ isinstance_list parsed_tags = true) ->
  blob_storage_upload_file (file_data file) user_id (filename file)
    (content_type file) w = (Return uploaded, w1) ->
  uuid_uuid4 w1 = (media_identifier, w2) ->
  datetime_utcnow_isoformat w2 = (timestamp_iso, w3) ->
  cosmos_db_create_media
    (media_payload_of file description user_id media_identifier
       timestamp_iso media_kind uploaded_size (fst uploaded) (snd uploaded)
       VNone parsed_tags) w3
  = (Raise e, w4) ->
  run (upload_media file description tags user_id) w
  = (Raise
       (if is_HTTPException e then e
        else HTTPException HTTP_500_INTERNAL_SERVER_ERROR
               ("Failed to upload media: " +:+ str_exn e)),
     {| ext := w4;
        calls := [
          CallBlobUpload (file_data file) user_id (filename file)
            (content_type file);
          CallUuid4 media_identifier;
          CallUtcnow timestamp_iso;
          CallCreateMedia
            (media_payload_of file description user_id media_identifier
               timestamp_iso media_kind uploaded_size (fst uploaded)
               (snd uploaded) VNone parsed_tags)];
        logs :=
          if is_HTTPException e then []
          else [LogRecord media_logger ERROR
                  ("Upload error: " +:+ str_exn e)] |}).
Proof.
  intros Hty Hkind Hsz Htags Hup Hid Hnow Hcreate.
  unfold run, upload_media, upload_thumbnail, try_except, bind, lift,
    invoke, draw.
  rewrite Hty, Hsz. simpl.
  rewrite (parse_tags_accepted _ parsed_tags) by done. simpl.
  rewrite Hup. simpl. rewrite Hkind. simpl.
  rewrite Hid. simpl. rewrite Hnow. simpl. rewrite Hcreate. simpl.
  by destruct (is_HTTPException e).
Qed.
End UploadPaths.

(** ** The read handlers *)

Section ReadPaths.
Context {world : Type} `{Collaborators world} `{MediaQueries world}.

Lemma MediaResponse_init_required (item : doc) :
  (exists response, MediaResponse_init item = Return response)
  <-> Forall (fun key => is_Some (item !! key)) media_required_fields.
Proof.
  unfold media_required_fields. split.
  - unfold MediaResponse_init, required_field, and_then.
    repeat (simpl; destruct_scrutinee); intros [response Hinit];
      try discriminate.
    repeat constructor; eauto.
  - intros Hall. repeat (apply Forall_cons in Hall as [[? ?] Hall]).
    unfold MediaResponse_init, required_field, and_then.
    repeat match goal with Hk : item !! _ = Some _ |- _ => rewrite Hk; clear Hk end.
    eauto.
Qed.

Lemma MediaResponse_each_Forall2 (items : list doc) responses :
  MediaResponse_each items = Return responses ->
  Forall2 (fun item response => MediaResponse_init item = Return response)
    items responses.
Proof.
  revert responses. induction items as [| item rest IH]; intros responses.
  - intros [= <-]. constructor.
  - simpl. unfold and_then at 1.
    destruct (MediaResponse_init item) as [response |] eqn:Hinit;
      [| discriminate].
    unfold and_then.
    destruct (MediaResponse_each rest) as [rest_responses |];
      [| discriminate].
    intros [= <-]. constructor; [done | by apply IH].
Qed.

Lemma MediaResponse_each_valid (items : list doc) :
  (exists responses, MediaResponse_each items = Return responses)
  <-> Forall
        (fun item => Forall (fun key => is_Some (item !! key))
                       media_required_fields)
        items.
Proof.
  induction items as [| item rest IH].
  - split; [constructor | by exists []].
  - simpl. split.
    + intros [responses Heach]. unfold and_then in Heach.
      destruct (MediaResponse_init item) as [response |] eqn:Hinit;
        [| discriminate].
      destruct (MediaResponse_each rest) as [rest_responses |];
        [| discriminate].
      constructor.
      * apply MediaResponse_init_required. eauto.
      * apply IH. eauto.
    + intros [Hitem Hrest]%Forall_cons.
      apply MediaResponse_init_required in Hitem as [response ->].
      apply IH in Hrest as [rest_responses ->]. simpl. eauto.
Qed.

Lemma MediaResponse_each_invalid (items : list doc) :
  ~ Forall
      (fun item => Forall (fun key => is_Some (item !! key))
                     media_required_fields)
      items ->
  exists msg, MediaResponse_each items = Raise (ValidationError msg).
Proof.
  induction items as [| item rest IH]; intros Hinvalid.
  - destruct Hinvalid. constructor.
  - simpl. unfold and_then.
    destruct (MediaResponse_init item) as [response | e] eqn:Hinit.
    + destruct (MediaResponse_each rest) as [rest_responses | e] eqn:Heach.
      * destruct Hinvalid. apply (MediaResponse_each_valid (item :: rest)).
        exists (response :: rest_responses). simpl. by rewrite Hinit, Heach.
      * destruct IH as [msg Hmsg]; [| by simplify_eq; eauto].
        intros Hrest. destruct Hinvalid. constructor; [| done].
        apply MediaResponse_init_required. eauto.
    + revert Hinit. unfold MediaResponse_init, required_field, and_then.
      repeat (simpl; destruct_scrutinee); intros; simplify_eq; eauto.
Qed.

(** X6: [search_media] and [get_media_list] on a page of well-formed
    documents.  The response lists one [MediaResponse] per document, in the
    store's order; [total] is the store's count, not the length of the
    page; [page] and [pageSize] are those of the request.  Nothing is logged
    and no traced call is made. *)
Theorem list_handlers_return_the_page :
  (forall query page pageSize user_id w results count w',
      cosmos_db_search_media user_id query page pageSize w
        = (Return (results, count), w') ->
      Forall
        (fun item => Forall (fun key => is_Some (item !! key))
                       media_required_fields)
        results ->
      exists items,
        run (search_media query page pageSize user_id) w
        = (Return {| ml_items := items; ml_total := count;
                     ml_page := page; ml_pageSize := pageSize |},
           {| ext := w'; calls := []; logs := [] |})
        /\ Forall2
             (fun item response => MediaResponse_init item = Return response)
             results items)
  /\ (forall page pageSize mediaType user_id w results count w',
        cosmos_db_get_user_media user_id page pageSize mediaType w
          = (Return (results, count), w') ->
        Forall
          (fun item => Forall (fun key => is_Some (item !! key))
                         media_required_fields)
          results ->
        exists items,
          run (get_media_list page pageSize mediaType user_id) w
          = (Return {| ml_items := items; ml_total := count;
                       ml_page := page; ml_pageSize := pageSize |},
             {| ext := w'; calls := []; logs := [] |})
          /\ Forall2
               (fun item response =>
                  MediaResponse_init item = Return response)
               results items).
Proof.
  split.
  - intros query page pageSize user_id w results count w' Hstore Hvalid.
    apply MediaResponse_each_valid in Hvalid as [items Heach].
    exists items. split; [| by apply MediaResponse_each_Forall2].
    unfold run, search_media, try_except, bind, read_store, lift. simpl.
    rewrite Hstore. simpl. by rewrite Heach.
  - intros page pageSize mediaType user_id w results count w' Hstore Hvalid.
    apply MediaResponse_each_valid in Hvalid as [items Heach].
    exists items. split; [| by apply MediaResponse_each_Forall2].
    unfold run, get_media_list, try_except, bind, read_store, lift. simpl.
    rewrite Hstore. simpl. by rewrite Heach.
Qed.

(** X7: one malformed document fails the whole page.  If any document the
    store returns lacks a field [MediaResponse] requires, [search_media] and
    [get_media_list] answer 500 with their fixed detail and return no
    item. *)
Theorem list_handlers_fail_on_a_malformed_item :
  (forall query page pageSize user_id w results count w',
      cosmos_db_search_media user_id query page pageSize w
        = (Return (results, count), w') ->
      ~ Forall
          (fun item => Forall (fun key => is_Some (item !! key))
                         media_required_fields)
          results ->
      exists msg,
        run (search_media query page pageSize user_id) w
        = (Raise (HTTPException HTTP_500_INTERNAL_SERVER_ERROR
                    "Failed to search media"),
           {| ext := w'; calls := [];
              logs := [LogRecord media_logger ERROR
                         ("Search media error: " +:+ msg)] |}))
  /\ (forall page pageSize mediaType user_id w results count w',
        cosmos_db_get_user_media user_id page pageSize mediaType w
          = (Return (results, count), w') ->
        ~ Forall
            (fun item => Forall (fun key => is_Some (item !! key))
                           media_required_fields)
            results ->
        exists msg,
          run (get_media_list page pageSize mediaType user_id) w
          = (Raise (HTTPException HTTP_500_INTERNAL_SERVER_ERROR
                      "Failed to retrieve media list"),
             {| ext := w'; calls := [];
                logs := [LogRecord media_logger ERROR
                           ("Get media list error: " +:+ msg)] |})).
Proof.
  split.
  - intros query page pageSize user_id w results count w' Hstore Hinvalid.
    apply MediaResponse_each_invalid in Hinvalid as [msg Heach].
    exists msg.
    unfold run, search_media, try_except, bind, read_store, lift. simpl.
    rewrite Hstore. simpl. by rewrite Heach.
  - intros page pageSize mediaType user_id w results count w' Hstore Hinvalid.
    apply MediaResponse_each_invalid in Hinvalid as [msg Heach].
    exists msg.
    unfold run, get_media_list, try_except, bind, read_store, lift. simpl.
    rewrite Hstore. simpl. by rewrite Heach.
Qed.

(** X8: [search_media] and [get_media_list] have no clause that re-raises
    an [HTTPException].  Whatever the store raises, an [HTTPException]
    included, the answer is 500 with the handler's fixed detail; the
    exception's text goes to the log only. *)
Theorem list_handlers_mask_store_errors :
  (forall query page pageSize user_id w e w',
      cosmos_db_search_media user_id query page pageSize w = (Raise e, w') ->
      run (search_media query page pageSize user_id) w
      = (Raise (HTTPException HTTP_500_INTERNAL_SERVER_ERROR
                  "Failed to search media"),
         {| ext := w'; calls := [];
            logs := [LogRecord media_logger ERROR
                       ("Search media error: " +:+ str_exn e)] |}))
  /\ (forall page pageSize mediaType user_id w e w',
        cosmos_db_get_user_media user_id page pageSize mediaType w
          = (Raise e, w') ->
        run (get_media_list page pageSize mediaType user_id) w
        = (Raise (HTTPException HTTP_500_INTERNAL_SERVER_ERROR
                    "Failed to retrieve media list"),
           {| ext := w'; calls := [];
              logs := [LogRecord media_logger ERROR
                         ("Get media list error: " +:+ str_exn e)] |})).
Proof.
  split.
  - intros query page pageSize user_id w e w' Hstore.
    unfold run, search_media, try_except, bind, read_store. simpl.
    by rewrite Hstore.
  - intros page pageSize mediaType user_id w e w' Hstore.
    unfold run, get_media_list, try_except, bind, read_store. simpl.
    by rewrite Hstore.
Qed.

(** X9: [get_media_by_id] makes one call, the ownership check, on every
    path.  An [HTTPException] of the check (the NotFound of an absent or
    foreign record) is passed on unchanged and unlogged; any other exception
    of the check becomes a 500 with a fixed detail; a record that passes the
    check is returned as a [MediaResponse] when it has the required
    fields. *)
Theorem get_media_by_id_paths media_id user_id w :
  calls (snd (run (get_media_by_id media_id user_id) w))
  = [CallFetchOwned media_id user_id]
  /\ (forall status detail w',
        fetch_and_verify_media_ownership media_id user_id w
          = (Raise (HTTPException status detail), w') ->
        run (get_media_by_id media_id user_id) w
        = (Raise (HTTPException status detail),
           {| ext := w'; calls := [CallFetchOwned media_id user_id];
              logs := [] |}))
  /\ (forall e w',
        fetch_and_verify_media_ownership media_id user_id w = (Raise e, w') ->
        is_HTTPException e = false ->
        run (get_media_by_id media_id user_id) w
        = (Raise (HTTPException HTTP_500_INTERNAL_SERVER_ERROR
                    "Failed to retrieve media"),
           {| ext := w'; calls := [CallFetchOwned media_id user_id];
              logs := [LogRecord media_logger ERROR
                         ("Get media error: " +:+ str_exn e)] |}))
  /\ (forall media_snapshot w' response,
        fetch_and_verify_media_ownership media_id user_id w
          = (Return media_snapshot, w') ->
        MediaResponse_init media_snapshot = Return response ->
        run (get_media_by_id media_id user_id) w
        = (Return response,
           {| ext := w'; calls := [CallFetchOwned media_id user_id];
              logs := [] |})).
Proof.
  split; [| split; [| split]].
  - unfold run, get_media_by_id, try_except, bind, invoke, lift, log, raise.
    repeat (simpl; destruct_scrutinee; simplify_eq); done.
  - intros status detail w' Hfetch.
    unfold run, get_media_by_id, try_except, bind, invoke. simpl.
    by rewrite Hfetch.
  - intros e w' Hfetch Hclass.
    unfold run, get_media_by_id, try_except, bind, invoke. simpl.
    rewrite Hfetch. simpl. by rewrite Hclass.
  - intros media_snapshot w' response Hfetch Hinit.
    unfold run, get_media_by_id, try_except, bind, invoke, lift. simpl.
    rewrite Hfetch. simpl. by rewrite Hinit.
Qed.
End ReadPaths.

(** ** More on [update_media_metadata] and [delete_media] *)

Section MutationPaths.
Context {world : Type} `{Collaborators world}.

(** X10: no mutation without ownership.  When the ownership check raises,
    [update_media_metadata] and [delete_media] stop there: the check is
    their only call, so the store is not updated and neither a blob nor the
    record is deleted.  An [HTTPException] of the check is passed on
    unchanged by both. *)
Theorem ownership_failure_stops_mutation
    media_id update_data user_id w e w' :
  fetch_and_verify_media_ownership media_id user_id w = (Raise e, w') ->
  (snd (run (update_media_metadata media_id update_data user_id) w)).(calls)
  = [CallFetchOwned media_id user_id]
  /\ (snd (run (delete_media media_id user_id) w)).(calls)
     = [CallFetchOwned media_id user_id]
  /\ (snd (run (update_media_metadata media_id update_data user_id) w)).(ext)
     = w'
  /\ (snd (run (delete_media media_id user_id) w)).(ext) = w'
  /\ (is_HTTPException e = true ->
      fst (run (update_media_metadata media_id update_data user_id) w)
      = Raise e
      /\ fst (run (delete_media media_id user_id) w) = Raise e).
Proof.
  intros Hfetch.
  unfold run, update_media_metadata, delete_media, try_except, bind, invoke,
    log, raise.
  simpl. rewrite Hfetch. simpl.
  destruct e; simpl; repeat split; by intros.
Qed.

(** X11: how a failure of the store's update is answered by
    [update_media_metadata].  An [HTTPException] is passed on; a
    [ValueError] (or one of its subclasses) becomes 404 with the exception's
    text as detail and is not logged; anything else is logged and becomes
    500 "Failed to update media". *)
Theorem update_store_failure
    media_id update_data user_id w existing w1 now w2 e w3 :
  fetch_and_verify_media_ownership media_id user_id w
    = (Return existing, w1) ->
  datetime_utcnow_isoformat w1 = (now, w2) ->
  cosmos_db_update_media media_id user_id
    (update_payload_of now update_data) w2 = (Raise e, w3) ->
  run (update_media_metadata media_id update_data user_id) w
  = (Raise
       (if is_HTTPException e then e
        else if is_ValueError e then
          HTTPException HTTP_404_NOT_FOUND (str_exn e)
        else HTTPException HTTP_500_INTERNAL_SERVER_ERROR
               "Failed to update media"),
     {| ext := w3;
        calls := [CallFetchOwned media_id user_id;
                  CallUtcnow now;
                  CallUpdateMedia media_id user_id
                    (update_payload_of now update_data)];
        logs :=
          if is_HTTPException e || is_ValueError e then []
          else [LogRecord media_logger ERROR
                  ("Update media error: " +:+ str_exn e)] |}).
Proof.
  intros Hfetch Hnow Hupdate.
  unfold run, update_media_metadata, try_except, bind, invoke, draw.
  simpl. rewrite Hfetch. simpl. rewrite Hnow. simpl. rewrite Hupdate.
  by destruct e.
Qed.

(** X12: on every path of [delete_media], the metadata record is deleted
    only after the ownership check returned the record and the delete of its
    primary blob succeeded, and that delete of the record is the handler's
    last call. *)
Theorem metadata_delete_comes_last media_id user_id w deleted_id deleted_for :
  CallDeleteMedia deleted_id deleted_for
    ∈ calls (snd (run (delete_media media_id user_id) w)) ->
  deleted_id = media_id /\ deleted_for = user_id
  /\ last (calls (snd (run (delete_media media_id user_id) w)))
     = Some (CallDeleteMedia media_id user_id)
  /\ exists media_record w1 primary_blob w2,
      fetch_and_verify_media_ownership media_id user_id w
        = (Return media_record, w1)
      /\ media_record !! "fileName" = Some primary_blob
      /\ blob_storage_delete_file primary_blob w1 = (Return tt, w2).
Proof.
  unfold run, delete_media, subscript, try_except, bind, invoke, lift, log,
    ret, raise.
  repeat (simpl; destruct_scrutinee; simplify_eq).
  all: simpl; intros Hin; set_unfold in Hin; destruct_or?; simplify_eq.
  all: repeat match goal with u : unit |- _ => destruct u end.
  all: repeat split; eauto 10.
Qed.

(** X13: when the store fails to delete the record after the primary blob
    of a record without thumbnail was deleted, [delete_media] fails (the
    store's [HTTPException] passed on, anything else logged and answered
    with 500 "Failed to delete media") and the blob delete is not undone:
    the record is left without its blob. *)
Theorem delete_store_failure_after_blob
    media_id user_id w media_record w1 primary_blob w2 preview_blob_id e w3 :
  fetch_and_verify_media_ownership media_id user_id w
    = (Return media_record, w1) ->
  media_record !! "fileName" = Some primary_blob ->
  blob_storage_delete_file primary_blob w1 = (Return tt, w2) ->
  extract_thumbnail_blob_identifier media_record = Return preview_blob_id ->
  truthy_str preview_blob_id = false ->
  cosmos_db_delete_media media_id user_id w2 = (Raise e, w3) ->
  run (delete_media media_id user_id) w
  = (Raise
       (if is_HTTPException e then e
        else HTTPException HTTP_500_INTERNAL_SERVER_ERROR
               "Failed to delete media"),
     {| ext := w3;
        calls := [CallFetchOwned media_id user_id;
                  CallBlobDelete primary_blob;
                  CallDeleteMedia media_id user_id];
        logs :=
          if is_HTTPException e then []
          else [LogRecord media_logger ERROR
                  ("Delete media error: " +:+ str_exn e)] |}).
Proof.
  intros Hfetch Hname Hprimary Hextract Hfalsy Hdb.
  unfold run, delete_media, subscript, try_except, bind, lift, invoke.
  simpl. rewrite Hfetch. simpl. rewrite Hname. simpl.
  rewrite Hprimary. simpl. rewrite Hextract, Hfalsy. simpl.
  rewrite Hdb. simpl. by destruct (is_HTTPException e).
Qed.

(** X14: a record without the [fileName] key cannot be deleted.  The
    subscript raises a [KeyError], which is logged and answered with
    500 "Failed to delete media"; no blob and no record is deleted. *)
Theorem delete_record_without_file_name
    media_id user_id w media_record w1 :
  fetch_and_verify_media_ownership media_id user_id w
    = (Return media_record, w1) ->
  media_record !! "fileName" = None ->
  run (delete_media media_id user_id) w
  = (Raise (HTTPException HTTP_500_INTERNAL_SERVER_ERROR
              "Failed to delete media"),
     {| ext := w1;
        calls := [CallFetchOwned media_id user_id];
        logs := [LogRecord media_logger ERROR
                   "Delete media error: 'fileName'"] |}).
Proof.
  intros Hfetch Hname.
  unfold run, delete_media, subscript, try_except, bind, lift, invoke.
  simpl. rewrite Hfetch. simpl. by rewrite Hname.
Qed.
End MutationPaths.

(** ** More on the auth handlers *)

Section AuthPaths.
Context {world : Type} `{Collaborators world}.

#[local] Arguments list_to_map : simpl never.

(** X15: a successful registration.  The store is asked to create the
    document [{id, username, email, hashed_password, created_at}] whose [id]
    is the identifier drawn and whose [hashed_password] is what
    [get_password_hash] returned; the password itself is handed to
    [get_password_hash] only.  The token is issued for the drawn identifier
    and the email of the request, and the returned user is read from the
    document the store gave back. *)
Theorem register_success_path
    account_payload w unknown w1 account_id w2 hashed_password w3
    created_at w4 persisted_user w5 access_token w6
    user_id user_username user_email user_created_at :
  cosmos_db_get_user_by_email (uc_email account_payload) w
    = (Return unknown, w1) ->
  truthy_doc unknown = false ->
  uuid_uuid4 w1 = (account_id, w2) ->
  get_password_hash (uc_password account_payload) w2
    = (Return hashed_password, w3) ->
  datetime_utcnow_isoformat w3 = (created_at, w4) ->
  cosmos_db_create_user
    (list_to_map [
       ("id", VStr account_id);
       ("username", VStr (uc_username account_payload));
       ("email", VStr (uc_email account_payload));
       ("hashed_password", VStr hashed_password);
       ("created_at", VStr created_at)]) w4
  = (Return persisted_user, w5) ->
  create_access_token
    (list_to_map [
       ("sub", VStr account_id);
       ("email", VStr (uc_email account_payload))]) w5
  = (Return access_token, w6) ->
  persisted_user !! "id" = Some user_id ->
  persisted_user !! "username" = Some user_username ->
  persisted_user !! "email" = Some user_email ->
  persisted_user !! "created_at" = Some user_created_at ->
  run (register_account account_payload) w
  = (Return {| tk_token := access_token;
               tk_user := {| ur_id := user_id;
                             ur_username := user_username;
                             ur_email := user_email;
                             ur_createdAt := user_created_at |} |},
     {| ext := w6;
        calls := [
          CallGetUserByEmail (uc_email account_payload);
          CallUuid4 account_id;
          CallHashPassword (uc_password account_payload);
          CallUtcnow created_at;
          CallCreateUser
            (list_to_map [
               ("id", VStr account_id);
               ("username", VStr (uc_username account_payload));
               ("email", VStr (uc_email account_payload));
               ("hashed_password", VStr hashed_password);
               ("created_at", VStr created_at)]);
          CallCreateToken
            (list_to_map [
               ("sub", VStr account_id);
               ("email", VStr (uc_email account_payload))])];
        logs := [
          LogRecord auth_logger INFO
            ("Registration attempt for email: "
               +:+ uc_email account_payload);
          LogRecord auth_logger INFO
            ("User created successfully: " +:+ uc_email account_payload)]
     |}).
Proof.
  intros Hget Hfalsy Hid Hhash Hnow Hcreate Htoken Hi Hu He Hc.
  unfold run, register_account, subscript, try_except, bind, invoke, draw,
    log.
  simpl. rewrite Hget. simpl. rewrite Hfalsy. simpl.
  rewrite Hid. simpl. rewrite Hhash. simpl. rewrite Hnow. simpl.
  rewrite Hcreate. simpl. rewrite Htoken. simpl.
  by rewrite Hi, Hu, He, Hc.
Qed.

(** X16: a failure of the password hashing during registration.  Nothing is
    stored and no token is issued.  An [HTTPException] is passed on; a
    [ValueError] (or one of its subclasses) becomes 400 with the exception's
    text as detail; anything else becomes 500 with the exception's text
    appended to "Failed to register user: ". *)
Theorem register_hash_failure
    account_payload w unknown w1 account_id w2 e w3 :
  cosmos_db_get_user_by_email (uc_email account_payload) w
    = (Return unknown, w1) ->
  truthy_doc unknown = false ->
  uuid_uuid4 w1 = (account_id, w2) ->
  get_password_hash (uc_password account_payload) w2 = (Raise e, w3) ->
  fst (run (register_account account_payload) w)
  = Raise
      (if is_HTTPException e then e
       else if is_ValueError e then
         HTTPException HTTP_400_BAD_REQUEST (str_exn e)
       else HTTPException HTTP_500_INTERNAL_SERVER_ERROR
              ("Failed to register user: " +:+ str_exn e))
  /\ calls (snd (run (register_account account_payload) w))
     = [CallGetUserByEmail (uc_email account_payload);
        CallUuid4 account_id;
        CallHashPassword (uc_password account_payload)]
  /\ ext (snd (run (register_account account_payload) w)) = w3.
Proof.
  intros Hget Hfalsy Hid Hhash.
  unfold run, register_account, try_except, bind, invoke, draw, log.
  simpl. rewrite Hget. simpl. rewrite Hfalsy. simpl.
  rewrite Hid. simpl. rewrite Hhash. by destruct e.
Qed.

(** X17: when the document the store returns for the new user lacks one of
    [id], [username], [email], [created_at], the registration is answered
    with 500 naming the first missing key, in that order of the four,
    although the user was created and a token was issued before the key was
    read. *)
Theorem register_incomplete_stored_user
    account_payload w unknown w1 account_id w2 hashed_password w3
    created_at w4 persisted_user w5 access_token w6 key :
  cosmos_db_get_user_by_email (uc_email account_payload) w
    = (Return unknown, w1) ->
  truthy_doc unknown = false ->
  uuid_uuid4 w1 = (account_id, w2) ->
  get_password_hash (uc_password account_payload) w2
    = (Return hashed_password, w3) ->
  datetime_utcnow_isoformat w3 = (created_at, w4) ->
  cosmos_db_create_user
    (list_to_map [
       ("id", VStr account_id);
       ("username", VStr (uc_username account_payload));
       ("email", VStr (uc_email account_payload));
       ("hashed_password", VStr hashed_password);
       ("created_at", VStr created_at)]) w4
  = (Return persisted_user, w5) ->
  create_access_token
    (list_to_map [
       ("sub", VStr account_id);
       ("email", VStr (uc_email account_payload))]) w5
  = (Return access_token, w6) ->
  List.find
    (fun k =>
       match persisted_user !! k with
       | None => true
       | Some _ => false
       end)
    ["id"; "username"; "email"; "created_at"]
  = Some key ->
  run (register_account account_payload) w
  = (Raise (HTTPException HTTP_500_INTERNAL_SERVER_ERROR
              ("Failed to register user: '" +:+ key +:+ "'")),
     {| ext := w6;
        calls := [
          CallGetUserByEmail (uc_email account_payload);
          CallUuid4 account_id;
          CallHashPassword (uc_password account_payload);
          CallUtcnow created_at;
          CallCreateUser
            (list_to_map [
               ("id", VStr account_id);
               ("username", VStr (uc_username account_payload));
               ("email", VStr (uc_email account_payload));
               ("hashed_password", VStr hashed_password);
               ("created_at", VStr created_at)]);
          CallCreateToken
            (list_to_map [
               ("sub", VStr account_id);
               ("email", VStr (uc_email account_payload))])];
        logs := [
          LogRecord auth_logger INFO
            ("Registration attempt for email: "
               +:+ uc_email account_payload);
          LogRecord auth_logger INFO
            ("User created successfully: " +:+ uc_email account_payload);
          LogRecord auth_logger ERROR
            ("Registration error: '" +:+ key +:+ "'")] |}).
Proof.
  intros Hget Hfalsy Hid Hhash Hnow Hcreate Htoken Hfirst.
  unfold run, register_account, subscript, try_except, bind, invoke, draw,
    log.
  simpl. rewrite Hget. simpl. rewrite Hfalsy. simpl.
  rewrite Hid. simpl. rewrite Hhash. simpl. rewrite Hnow. simpl.
  rewrite Hcreate. simpl. rewrite Htoken. simpl.
  simpl in Hfirst.
  destruct (persisted_user !! "id"); [| by simplify_eq].
  destruct (persisted_user !! "username"); [| by simplify_eq].
  destruct (persisted_user !! "email"); [| by simplify_eq].
  destruct (persisted_user !! "created_at"); [| by simplify_eq].
  discriminate.
Qed.

(** X18: a successful login writes nothing.  Its calls are the lookup by
    email and the token issuance; the token is issued for the [id] and the
    [email] of the stored user, and the returned user is read from the same
    record. *)
Theorem login_success_path
    credentials_payload w account_record w1 stored_hash
    user_id user_username user_email user_created_at access_token w2 :
  cosmos_db_get_user_by_email (lr_email credentials_payload) w
    = (Return (Some account_record), w1) ->
  truthy_doc (Some account_record) = true ->
  account_record !! "hashed_password" = Some stored_hash ->
  verify_password (lr_password credentials_payload) stored_hash
    = Return true ->
  account_record !! "id" = Some user_id ->
  account_record !! "username" = Some user_username ->
  account_record !! "email" = Some user_email ->
  account_record !! "created_at" = Some user_created_at ->
  create_access_token
    (list_to_map [("sub", user_id); ("email", user_email)]) w1
  = (Return access_token, w2) ->
  run (login_account credentials_payload) w
  = (Return {| tk_token := access_token;
               tk_user := {| ur_id := user_id;
                             ur_username := user_username;
                             ur_email := user_email;
                             ur_createdAt := user_created_at |} |},
     {| ext := w2;
        calls := [
          CallGetUserByEmail (lr_email credentials_payload);
          CallCreateToken
            (list_to_map [("sub", user_id); ("email", user_email)])];
        logs := [
          LogRecord auth_logger INFO
            ("Login attempt for email: " +:+ lr_email credentials_payload);
          LogRecord auth_logger INFO
            ("Login successful for user: " +:+ str_value user_email)] |}).
Proof.
  intros Hget Htruthy Hhash Hverify Hi Hu He Hc Htoken.
  unfold run, login_account, subscript_opt, subscript, try_except, bind,
    invoke, log, lift.
  simpl. rewrite Hget. simpl. rewrite Htruthy. simpl. rewrite Hhash. simpl.
  rewrite Hverify. simpl. rewrite Hi. simpl. rewrite He. simpl.
  rewrite Htoken. simpl. by rewrite Hu, Hc.
Qed.

(** X19: a stored user without the [hashed_password] key cannot log in.
    The subscript raises a [KeyError] before the password is verified; it is
    logged and answered with 500 "Failed to login: 'hashed_password'", not
    with the 401 of a wrong password, and no token is issued. *)
Theorem login_record_without_hash credentials_payload w account_record w1 :
  cosmos_db_get_user_by_email (lr_email credentials_payload) w
    = (Return (Some account_record), w1) ->
  truthy_doc (Some account_record) = true ->
  account_record !! "hashed_password" = None ->
  run (login_account credentials_payload) w
  = (Raise (HTTPException HTTP_500_INTERNAL_SERVER_ERROR
              "Failed to login: 'hashed_password'"),
     {| ext := w1;
        calls := [CallGetUserByEmail (lr_email credentials_payload)];
        logs := [
          LogRecord auth_logger INFO
            ("Login attempt for email: " +:+ lr_email credentials_payload);
          LogRecord auth_logger ERROR
            "Login error: 'hashed_password'"] |}).
Proof.
  intros Hget Htruthy Hhash.
  unfold run, login_account, subscript_opt, subscript, try_except, bind,
    invoke, log, lift.
  simpl. rewrite Hget. simpl. rewrite Htruthy. simpl. by rewrite Hhash.
Qed.
End AuthPaths.

Import InMemory.

Section Concrete.

(** C1: an upload whose [tags] field is the JSON object [{}], with a valid
    file and a valid token.  The field is valid JSON but not an array; the
    handler answers 500 "Failed to upload media: Tags must be an array",
    not 400, having called neither the blob store nor the document
    store. *)
Theorem upload_tags_json_object_is_internal_error :
  POST_media "Bearer token:alice" photo None (Some "{}") with_alice
  = ({| http_status := 500;
        http_body :=
          VDict [("detail",
                  VStr "Failed to upload media: Tags must be an array")] |},
     {| ext := with_alice;
        calls := [CallGetCurrentUserId "Bearer token:alice"];
        logs := [LogRecord media_logger ERROR
                   "Upload error: Tags must be an array"] |}).
Proof. reflexivity. Qed.

(** Tags that are not JSON at all are answered with the BadRequest. *)
Example upload_tags_not_json_is_bad_request :
  POST_media "Bearer token:alice" photo None (Some "not json") with_alice
  = ({| http_status := 400;
        http_body :=
          VDict [("detail",
                  VStr "Invalid tags format. Must be a JSON array.")] |},
     {| ext := with_alice;
        calls := [CallGetCurrentUserId "Bearer token:alice"];
        logs := [] |}).
Proof. reflexivity. Qed.

Lemma upload_rejected_before_blob_store_witness :
  run (upload_media notes None None "alice") with_alice
  = (Raise (HTTPException HTTP_400_BAD_REQUEST "Unsupported file type"),
     {| ext := with_alice; calls := []; logs := [] |})
  /\ run (upload_media long_video None None "alice") with_alice
     = (Raise (HTTPException HTTP_400_BAD_REQUEST "File too large"),
        {| ext := with_alice; calls := []; logs := [] |}).
Proof.
  split.
  - apply (upload_rejected_before_blob_store notes None None "alice"
             with_alice "Unsupported file type").
    left. reflexivity.
  - apply (upload_rejected_before_blob_store long_video None None "alice"
             with_alice "File too large").
    right. exists "video". split; reflexivity.
Defined.

Lemma thumbnail_upload_failure_is_not_fatal_witness :
  run (upload_media photo (Some "holiday") (Some "[]") "alice")
    thumbnails_down
  = (Return {|
       mr_id := VStr "uuid-0";
       mr_userId := VStr "alice";
       mr_fileName := VStr "alice/a.jpg";
       mr_originalFileName := VStr "a.jpg";
       mr_mediaType := VStr "image";
       mr_fileSize := VInt 3;
       mr_mimeType := VStr "image/jpeg";
       mr_blobUrl := VStr "https://blobs.test/alice/a.jpg";
       mr_thumbnailUrl := VNone;
       mr_description := VStr "holiday";
       mr_tags := VList [];
       mr_uploadedAt := VStr "2024-01-01T00:00:00";
       mr_updatedAt := VStr "2024-01-01T00:00:00"
     |},
     {| ext :=
          {| users := [alice];
             media :=
               {[ "uuid-0" :=
                    media_payload_of photo (Some "holiday") "alice"
                      "uuid-0" "2024-01-01T00:00:00" "image" 3
                      "alice/a.jpg" "https://blobs.test/alice/a.jpg"
                      VNone (VList []) ]};
             blobs := {[ "alice/a.jpg" := file_data photo ]};
             unavailable := ["alice/thumb_a.jpg"];
             uuid_counter := 1; clock := 1 |};
        calls := [
          CallBlobUpload (file_data photo) "alice" "a.jpg" "image/jpeg";
          CallBlobUpload [Byte.x89; Byte.x50] "alice" "thumb_a.jpg"
            "image/jpeg";
          CallUuid4 "uuid-0";
          CallUtcnow "2024-01-01T00:00:00";
          CallCreateMedia
            (media_payload_of photo (Some "holiday") "alice" "uuid-0"
               "2024-01-01T00:00:00" "image" 3 "alice/a.jpg"
               "https://blobs.test/alice/a.jpg" VNone (VList []))];
        logs := [LogRecord media_logger WARNING
                   "Failed to upload thumbnail: blob service unavailable"]
     |})
  /\ fst (POST_media "Bearer token:alice" photo (Some "holiday") (Some "[]")
            thumbnails_down)
     = {| http_status := 201;
          http_body :=
            VDict [("id", VStr "uuid-0");
                   ("userId", VStr "alice");
                   ("fileName", VStr "alice/a.jpg");
                   ("originalFileName", VStr "a.jpg");
                   ("mediaType", VStr "image");
                   ("fileSize", VInt 3);
                   ("mimeType", VStr "image/jpeg");
                   ("blobUrl", VStr "https://blobs.test/alice/a.jpg");
                   ("thumbnailUrl", VNone);
                   ("description", VStr "holiday");
                   ("tags", VList []);
                   ("uploadedAt", VStr "2024-01-01T00:00:00");
                   ("updatedAt", VStr "2024-01-01T00:00:00")] |}.
Proof.
  destruct (thumbnail_upload_failure_is_not_fatal
              "Bearer token:alice" thumbnails_down
              photo (Some "holiday") (Some "[]") "alice" thumbnails_down
              3 (VList [])
              ("alice/a.jpg", "https://blobs.test/alice/a.jpg")
              {| users := [alice]; media := ∅;
                 blobs := {[ "alice/a.jpg" := file_data photo ]};
                 unavailable := ["alice/thumb_a.jpg"];
                 uuid_counter := 0; clock := 0 |}
              (Some [Byte.x89; Byte.x50])
              (OtherError "blob service unavailable")
              {| users := [alice]; media := ∅;
                 blobs := {[ "alice/a.jpg" := file_data photo ]};
                 unavailable := ["alice/thumb_a.jpg"];
                 uuid_counter := 0; clock := 0 |}
              "uuid-0"
              {| users := [alice]; media := ∅;
                 blobs := {[ "alice/a.jpg" := file_data photo ]};
                 unavailable := ["alice/thumb_a.jpg"];
                 uuid_counter := 1; clock := 0 |}
              "2024-01-01T00:00:00"
              {| users := [alice]; media := ∅;
                 blobs := {[ "alice/a.jpg" := file_data photo ]};
                 unavailable := ["alice/thumb_a.jpg"];
                 uuid_counter := 1; clock := 1 |}
              (media_payload_of photo (Some "holiday") "alice" "uuid-0"
                 "2024-01-01T00:00:00" "image" 3 "alice/a.jpg"
                 "https://blobs.test/alice/a.jpg" VNone (VList []))
              {| users := [alice];
                 media :=
                   {[ "uuid-0" :=
                        media_payload_of photo (Some "holiday") "alice"
                          "uuid-0" "2024-01-01T00:00:00" "image" 3
                          "alice/a.jpg" "https://blobs.test/alice/a.jpg"
                          VNone (VList []) ]};
                 blobs := {[ "alice/a.jpg" := file_data photo ]};
                 unavailable := ["alice/thumb_a.jpg"];
                 uuid_counter := 1; clock := 1 |})
    as (Hrun & _ & Hroute).
  - reflexivity.
  - reflexivity.
  - reflexivity.
  - right. by repeat split.
  - reflexivity.
  - reflexivity.
  - reflexivity.
  - reflexivity.
  - reflexivity.
  - reflexivity.
  - reflexivity.
  - reflexivity.
  - split; [exact Hrun |]. by rewrite Hroute.
Defined.

Lemma persisted_media_owner_and_id_witness :
  (exists user_id w',
      get_current_user_id "Bearer token:alice" with_alice
        = (Return user_id, w')
      /\ media_payload_of photo None "alice" "uuid-0" "2024-01-01T00:00:00"
           "image" 3 "alice/a.jpg" "https://blobs.test/alice/a.jpg"
           (VStr "https://blobs.test/alice/thumb_a.jpg")
           (VList [VInt 1; VInt 2; VInt 3]) !! "userId"
         = Some (VStr user_id))
  /\ (exists before media_identifier timestamp_iso,
        calls (snd (POST_media "Bearer token:alice" photo None
                      (Some "[1,2,3]") with_alice))
        = (before ++ [
             CallUuid4 media_identifier; CallUtcnow timestamp_iso;
             CallCreateMedia
               (media_payload_of photo None "alice" "uuid-0"
                  "2024-01-01T00:00:00" "image" 3 "alice/a.jpg"
                  "https://blobs.test/alice/a.jpg"
                  (VStr "https://blobs.test/alice/thumb_a.jpg")
                  (VList [VInt 1; VInt 2; VInt 3]))])%list
        /\ media_payload_of photo None "alice" "uuid-0"
             "2024-01-01T00:00:00" "image" 3 "alice/a.jpg"
             "https://blobs.test/alice/a.jpg"
             (VStr "https://blobs.test/alice/thumb_a.jpg")
             (VList [VInt 1; VInt 2; VInt 3]) !! "id"
           = Some (VStr media_identifier)
        /\ forall other, CallCreateMedia other ∉ before).
Proof.
  apply persisted_media_owner_and_id.
  replace (calls (snd (POST_media "Bearer token:alice" photo None
                         (Some "[1,2,3]") with_alice)))
    with [CallGetCurrentUserId "Bearer token:alice";
          CallBlobUpload (file_data photo) "alice" "a.jpg" "image/jpeg";
          CallBlobUpload [Byte.x89; Byte.x50] "alice" "thumb_a.jpg"
            "image/jpeg";
          CallUuid4 "uuid-0";
          CallUtcnow "2024-01-01T00:00:00";
          CallCreateMedia
            (media_payload_of photo None "alice" "uuid-0"
               "2024-01-01T00:00:00" "image" 3 "alice/a.jpg"
               "https://blobs.test/alice/a.jpg"
               (VStr "https://blobs.test/alice/thumb_a.jpg")
               (VList [VInt 1; VInt 2; VInt 3]))]
    by reflexivity.
  do 5 apply list_elem_of_further. apply list_elem_of_here.
Defined.

Lemma update_changes_only_provided_fields_witness :
  exists response,
    fst (run (update_media_metadata "m1" retitle "alice") (library []))
    = Return response
    /\ mr_description response = VStr "beach"
    /\ mr_updatedAt response = VStr "2024-01-01T00:00:05"
    /\ mr_tags response = VNone
    /\ mr_fileName response = VStr "alice/a.jpg"
    /\ (update_payload_of "2024-01-01T00:00:05" retitle ∪ stored_photo)
         !! "uploadedAt"
       = stored_photo !! "uploadedAt".
Proof.
  destruct (update_changes_only_provided_fields
              "m1" retitle "alice" (library []) stored_photo (library [])
              "2024-01-01T00:00:05"
              {| users := [alice]; media := media (library []);
                 blobs := blobs (library []); unavailable := [];
                 uuid_counter := 2; clock := 6 |}
              (set_media
                 (<[ "m1" := update_payload_of "2024-01-01T00:00:05" retitle
                               ∪ stored_photo ]> (media (library [])))
                 {| users := [alice]; media := media (library []);
                    blobs := blobs (library []); unavailable := [];
                    uuid_counter := 2; clock := 6 |})
              {| mr_id := VStr "m1";
                 mr_userId := VStr "alice";
                 mr_fileName := VStr "alice/a.jpg";
                 mr_originalFileName := VStr "a.jpg";
                 mr_mediaType := VStr "image";
                 mr_fileSize := VInt 3;
                 mr_mimeType := VStr "image/jpeg";
                 mr_blobUrl := VStr "https://blobs.test/alice/a.jpg";
                 mr_thumbnailUrl :=
                   VStr "https://blobs.test/alice/thumb_a.jpg";
                 mr_description := VStr "beach";
                 mr_tags := VNone;
                 mr_uploadedAt := VStr "2023-12-31T10:00:00";
                 mr_updatedAt := VStr "2024-01-01T00:00:05" |})
    as (Hrun & _ & _ & _ & _ & Hframe & _).
  - reflexivity.
  - reflexivity.
  - reflexivity.
  - reflexivity.
  - eexists. split; [by rewrite Hrun |].
    repeat (split; [reflexivity |]). by apply Hframe.
Defined.


Lemma delete_without_thumbnail_single_blob_delete_witness :
  (length (filter is_blob_delete
             (calls (snd (run (delete_media "m2" "alice") (library [])))))
   <= 1)%nat
  /\ run (delete_media "m2" "alice") (library [])
     = (Return tt,
        {| ext :=
             {| users := [alice];
                media := {[ "m1" := stored_photo ]};
                blobs :=
                  <[ "alice/a.jpg" := [Byte.x89; Byte.x50; Byte.x4e] ]>
                    {[ "alice/thumb_a.jpg" := [Byte.x89; Byte.x50] ]};
                unavailable := [];
                uuid_counter := 2; clock := 5 |};
           calls := [CallFetchOwned "m2" "alice";
                     CallBlobDelete (VStr "alice/v.mp4");
                     CallDeleteMedia "m2" "alice"];
           logs := [] |}).
Proof.
  destruct (delete_without_thumbnail_single_blob_delete
              "m2" "alice" (library []) stored_video (library []) None)
    as [Hcount Hrun]; [reflexivity | reflexivity | reflexivity |].
  split; [exact Hcount |].
  erewrite Hrun; [| reflexivity | reflexivity | reflexivity].
  vm_compute. reflexivity.
Defined.

Lemma login_failures_indistinguishable_witness :
  fst (run (login_account nobody_login) with_alice)
  = Raise (HTTPException HTTP_401_UNAUTHORIZED "Invalid email or password")
  /\ fst (run (login_account alice_wrong_password) with_alice)
     = Raise (HTTPException HTTP_401_UNAUTHORIZED
                "Invalid email or password")
  /\ fst (POST_auth_login nobody_login with_alice)
     = fst (POST_auth_login alice_wrong_password with_alice)
  /\ fst (POST_auth_login nobody_login with_alice)
     = {| http_status := 401;
          http_body := VDict [("detail", VStr "Invalid email or password")] |}.
Proof.
  apply (login_failures_indistinguishable
           nobody_login with_alice None with_alice
           alice_wrong_password with_alice alice with_alice
           (VStr "hash:wonderland"));
    reflexivity.
Defined.

Lemma register_existing_email_is_bad_request_witness :
  run (register_account alice_signup) with_alice
  = (Raise (HTTPException HTTP_400_BAD_REQUEST
              "User with this email already exists"),
     {| ext := with_alice;
        calls := [CallGetUserByEmail "alice@example.org"];
        logs := [
          LogRecord auth_logger INFO
            "Registration attempt for email: alice@example.org";
          LogRecord auth_logger WARNING
            "Registration failed: Email already exists alice@example.org"]
     |})
  /\ fst (POST_auth_register alice_signup with_alice)
     = {| http_status := 400;
          http_body :=
            VDict [("detail",
                    VStr "User with this email already exists")] |}.
Proof.
  apply (register_existing_email_is_bad_request
           alice_signup with_alice (Some alice) with_alice);
    reflexivity.
Defined.

(** C8 as stated fails: the second registration of an email is answered
    with status 400 (BadRequest), not with 409 (Conflict). *)
Lemma register_twice_is_not_conflict :
  http_status (fst (POST_auth_register bob_signup empty_store)) = 200
  /\ http_status
       (fst (POST_auth_register bob_signup
               (ext (snd (POST_auth_register bob_signup empty_store)))))
     = 400
  /\ http_status
       (fst (POST_auth_register bob_signup
               (ext (snd (POST_auth_register bob_signup empty_store)))))
     <> HTTP_409_CONFLICT.
Proof.
  split; [vm_compute; reflexivity |].
  split; [vm_compute; reflexivity |].
  vm_compute. discriminate.
Qed.

Lemma auth_response_user_has_four_fields_witness :
  fst (POST_auth_register bob_signup empty_store)
  = {| http_status := 200;
       http_body :=
         VDict [("token", VStr "token:uuid-0");
                ("user",
                 VDict [("id", VStr "uuid-0");
                        ("username", VStr "Bob");
                        ("email", VStr "bob@example.org");
                        ("createdAt", VStr "2024-01-01T00:00:00")])] |}
  /\ fst (POST_auth_login alice_login with_alice)
     = {| http_status := 200;
          http_body :=
            VDict [("token", VStr "token:alice");
                   ("user",
                    VDict [("id", VStr "alice");
                           ("username", VStr "Alice");
                           ("email", VStr "alice@example.org");
                           ("createdAt", VStr "2023-12-31T00:00:00")])] |}.
Proof.
  destruct auth_response_user_has_four_fields as (Hregister & Hlogin & _).
  split.
  - destruct (Hregister bob_signup empty_store
                {| tk_token := "token:uuid-0";
                   tk_user :=
                     {| ur_id := VStr "uuid-0";
                        ur_username := VStr "Bob";
                        ur_email := VStr "bob@example.org";
                        ur_createdAt := VStr "2024-01-01T00:00:00" |} |}
                (snd (run (register_account bob_signup) empty_store)))
      as [Hbody _]; [vm_compute; reflexivity | exact Hbody].
  - destruct (Hlogin alice_login with_alice
                {| tk_token := "token:alice";
                   tk_user :=
                     {| ur_id := VStr "alice";
                        ur_username := VStr "Alice";
                        ur_email := VStr "alice@example.org";
                        ur_createdAt := VStr "2023-12-31T00:00:00" |} |}
                (snd (run (login_account alice_login) with_alice)))
      as [Hbody _]; [vm_compute; reflexivity | exact Hbody].
Defined.
End Concrete.

(** * The other paths on concrete requests *)

Lemma handlers_raise_only_HTTPException_witness :
  exists status detail,
    HTTPException HTTP_500_INTERNAL_SERVER_ERROR "Failed to delete media"
    = HTTPException status detail.
Proof.
  destruct (handlers_raise_only_HTTPException (world := store))
    as (_ & _ & _ & _ & _ & _ & _ & Hdelete).
  apply (Hdelete "m2" "alice"
           {| ext := damaged_library; calls := []; logs := [] |}
           (HTTPException HTTP_500_INTERNAL_SERVER_ERROR
              "Failed to delete media")
           {| ext := damaged_library;
              calls := [CallFetchOwned "m2" "alice"];
              logs := [LogRecord media_logger ERROR
                         "Delete media error: 'fileName'"] |}).
  reflexivity.
Defined.

Lemma upload_blob_calls_bounded_witness :
  (length (filter is_blob_upload
             (calls (snd (run (upload_media clip None None "alice")
                            with_alice)))) <= 1)%nat.
Proof.
  destruct (upload_blob_calls_bounded clip None None "alice" with_alice)
    as (_ & _ & Hone).
  apply Hone. intros Himage. vm_compute in Himage. discriminate.
Defined.

Lemma upload_primary_blob_failure_witness :
  run (upload_media photo None None "alice") (library ["alice/a.jpg"])
  = (Raise (HTTPException HTTP_500_INTERNAL_SERVER_ERROR
              "Failed to upload media: blob service unavailable"),
     {| ext := library ["alice/a.jpg"];
        calls := [CallBlobUpload (file_data photo) "alice" "a.jpg"
                    "image/jpeg"];
        logs := [LogRecord media_logger ERROR
                   "Upload error: blob service unavailable"] |}).
Proof.
  apply (upload_primary_blob_failure photo None None "alice"
           (library ["alice/a.jpg"]) "image" 3 VNone
           (OtherError "blob service unavailable")
           (library ["alice/a.jpg"])).
  - reflexivity.
  - reflexivity.
  - left. split; reflexivity.
  - reflexivity.
Defined.

Lemma upload_without_thumbnail_witness :
  exists response,
    fst (run (upload_media clip None None "alice") with_alice)
    = Return response
    /\ mr_thumbnailUrl response = VNone
    /\ mr_mediaType response = VStr "video".
Proof.
  epose proof (upload_without_thumbnail clip None None "alice" with_alice
                 "video" 2 VNone
                 ("alice/v.mp4", "https://blobs.test/alice/v.mp4")
                 _ None "uuid-0" _ "2024-01-01T00:00:00" _
                 (media_payload_of clip None "alice" "uuid-0"
                    "2024-01-01T00:00:00" "video" 2 "alice/v.mp4"
                    "https://blobs.test/alice/v.mp4" VNone VNone) _)
    as Hpath.
  edestruct Hpath as (response & Hrun & Hnull & Hkind).
  - reflexivity.
  - reflexivity.
  - left. split; reflexivity.
  - reflexivity.
  - left. reflexivity.
  - reflexivity.
  - reflexivity.
  - reflexivity.
  - reflexivity.
  - exists response. rewrite Hrun. by repeat split.
Defined.

Lemma upload_persist_failure_leaves_blob_witness :
  fst (run (upload_media (H := with_faults media_writes_down)
              clip None None "alice") with_alice)
  = Raise (HTTPException HTTP_500_INTERNAL_SERVER_ERROR
             "Failed to upload media: store unavailable")
  /\ blobs (ext (snd (run (upload_media (H := with_faults media_writes_down)
                            clip None None "alice") with_alice)))
       !! "alice/v.mp4"
     = Some (file_data clip)
  /\ media (ext (snd (run (upload_media (H := with_faults media_writes_down)
                            clip None None "alice") with_alice)))
     = ∅.
Proof.
  erewrite (upload_persist_failure_leaves_blob
              (H := with_faults media_writes_down)
              clip None None "alice" with_alice "video" 2 VNone
              ("alice/v.mp4", "https://blobs.test/alice/v.mp4")
              _ "uuid-0" _ "2024-01-01T00:00:00" _
              (OtherError "store unavailable")).
  all: cycle 1.
  - reflexivity.
  - reflexivity.
  - reflexivity.
  - left. split; reflexivity.
  - reflexivity.
  - reflexivity.
  - reflexivity.
  - reflexivity.
  - by repeat split.
Defined.

Lemma list_handlers_return_the_page_witness :
  (exists items,
      fst (run (search_media "holiday" 1 10 "alice") (library []))
      = Return {| ml_items := items; ml_total := 1;
                  ml_page := 1; ml_pageSize := 10 |}
      /\ Forall2
           (fun item response => MediaResponse_init item = Return response)
           [stored_photo] items)
  /\ (exists items,
        fst (run (get_media_list 2 1 None "alice") (library []))
        = Return {| ml_items := items; ml_total := 2;
                    ml_page := 2; ml_pageSize := 1 |}
        /\ Forall2
             (fun item response => MediaResponse_init item = Return response)
             [stored_video] items).
Proof.
  destruct (list_handlers_return_the_page (world := store))
    as [Hsearch Hlist].
  split.
  - edestruct (Hsearch "holiday" 1 10 "alice" (library []) [stored_photo] 1
                 (library [])) as (items & Hrun & Hall).
    + reflexivity.
    + repeat constructor; by eexists.
    + exists items. rewrite Hrun. by split.
  - edestruct (Hlist 2 1 None "alice" (library []) [stored_video] 2
                 (library [])) as (items & Hrun & Hall).
    + reflexivity.
    + repeat constructor; by eexists.
    + exists items. rewrite Hrun. by split.
Defined.

Lemma list_handlers_fail_on_a_malformed_item_witness :
  fst (run (search_media "holiday" 1 10 "alice") damaged_library)
  = Raise (HTTPException HTTP_500_INTERNAL_SERVER_ERROR
             "Failed to search media")
  /\ fst (run (get_media_list 1 10 None "alice") damaged_library)
     = Raise (HTTPException HTTP_500_INTERNAL_SERVER_ERROR
                "Failed to retrieve media list").
Proof.
  destruct (list_handlers_fail_on_a_malformed_item (world := store))
    as [Hsearch Hlist].
  split.
  - edestruct (Hsearch "holiday" 1 10 "alice" damaged_library [broken_photo]
                 1 damaged_library) as (msg & Hrun).
    + reflexivity.
    + intros [Hphoto _]%Forall_cons.
      unfold media_required_fields in Hphoto.
      rewrite !Forall_cons in Hphoto.
      destruct Hphoto as (_ & _ & _ & _ & _ & _ & _ & [url Hurl] & _).
      vm_compute in Hurl. discriminate.
    + by rewrite Hrun.
  - edestruct (Hlist 1 10 None "alice" damaged_library
                 [broken_photo; nameless_video] 2 damaged_library)
      as (msg & Hrun).
    + reflexivity.
    + intros [Hphoto _]%Forall_cons.
      unfold media_required_fields in Hphoto.
      rewrite !Forall_cons in Hphoto.
      destruct Hphoto as (_ & _ & _ & _ & _ & _ & _ & [url Hurl] & _).
      vm_compute in Hurl. discriminate.
    + by rewrite Hrun.
Defined.

Lemma list_handlers_mask_store_errors_witness :
  run (@search_media store queries_down "holiday" 1 10 "alice") with_alice
  = (Raise (HTTPException HTTP_500_INTERNAL_SERVER_ERROR
              "Failed to search media"),
     {| ext := with_alice; calls := [];
        logs := [LogRecord media_logger ERROR
                   "Search media error: 503: Service unavailable"] |})
  /\ run (@get_media_list store queries_down 1 10 None "alice") with_alice
     = (Raise (HTTPException HTTP_500_INTERNAL_SERVER_ERROR
                 "Failed to retrieve media list"),
        {| ext := with_alice; calls := [];
           logs := [LogRecord media_logger ERROR
                      "Get media list error: connection reset"] |}).
Proof.
  destruct (@list_handlers_mask_store_errors store queries_down)
    as [Hsearch Hlist].
  split.
  - apply (Hsearch "holiday" 1 10 "alice" with_alice
             (HTTPException 503 "Service unavailable") with_alice).
    reflexivity.
  - apply (Hlist 1 10 None "alice" with_alice
             (OtherError "connection reset") with_alice).
    reflexivity.
Defined.

Lemma get_media_by_id_paths_witness :
  run (get_media_by_id "m1" "bob") (library [])
  = (Raise (HTTPException HTTP_404_NOT_FOUND "Media not found"),
     {| ext := library []; calls := [CallFetchOwned "m1" "bob"];
        logs := [] |})
  /\ run (get_media_by_id "m1" "alice") damaged_library
     = (Raise (HTTPException HTTP_500_INTERNAL_SERVER_ERROR
                 "Failed to retrieve media"),
        {| ext := damaged_library; calls := [CallFetchOwned "m1" "alice"];
           logs := [LogRecord media_logger ERROR
                      "Get media error: Field required: blobUrl"] |})
  /\ exists response,
      run (get_media_by_id "m2" "alice") (library [])
      = (Return response,
         {| ext := library []; calls := [CallFetchOwned "m2" "alice"];
            logs := [] |})
      /\ mr_id response = VStr "m2".
Proof.
  split; [| split].
  - destruct (get_media_by_id_paths "m1" "bob" (library []))
      as (_ & Hdenied & _).
    apply Hdenied. reflexivity.
  - reflexivity.
  - destruct (get_media_by_id_paths "m2" "alice" (library []))
      as (_ & _ & _ & Hfound).
    eexists. split; [apply (Hfound stored_video); reflexivity |].
    reflexivity.
Defined.

Lemma ownership_failure_stops_mutation_witness :
  calls (snd (run (update_media_metadata "m1" retitle "bob") (library [])))
  = [CallFetchOwned "m1" "bob"]
  /\ calls (snd (run (delete_media "m1" "bob") (library [])))
     = [CallFetchOwned "m1" "bob"]
  /\ ext (snd (run (update_media_metadata "m1" retitle "bob") (library [])))
     = library []
  /\ ext (snd (run (delete_media "m1" "bob") (library []))) = library []
  /\ fst (run (update_media_metadata "m1" retitle "bob") (library []))
     = Raise (HTTPException HTTP_404_NOT_FOUND "Media not found")
  /\ fst (run (delete_media "m1" "bob") (library []))
     = Raise (HTTPException HTTP_404_NOT_FOUND "Media not found").
Proof.
  destruct (ownership_failure_stops_mutation "m1" retitle "bob" (library [])
              (HTTPException HTTP_404_NOT_FOUND "Media not found")
              (library []))
    as (Hupdate & Hdelete & Hstore1 & Hstore2 & Hpassed);
    [reflexivity |].
  destruct Hpassed as [Hraise1 Hraise2]; [reflexivity |].
  by repeat split.
Defined.

Lemma update_store_failure_witness :
  fst (run (update_media_metadata (H := with_faults media_writes_down)
              "m1" retitle "alice") (library []))
  = Raise (HTTPException HTTP_404_NOT_FOUND "Media not found").
Proof.
  erewrite (update_store_failure (H := with_faults media_writes_down)
              "m1" retitle "alice" (library []) stored_photo (library [])
              "2024-01-01T00:00:05" _ (ValueError "Media not found")).
  all: cycle 1.
  - reflexivity.
  - reflexivity.
  - reflexivity.
  - reflexivity.
Defined.

Lemma metadata_delete_comes_last_witness :
  last (calls (snd (run (delete_media "m2" "alice") (library []))))
  = Some (CallDeleteMedia "m2" "alice")
  /\ exists media_record w1 primary_blob w2,
      fetch_and_verify_media_ownership "m2" "alice" (library [])
        = (Return media_record, w1)
      /\ media_record !! "fileName" = Some primary_blob
      /\ blob_storage_delete_file primary_blob w1 = (Return tt, w2).
Proof.
  destruct (metadata_delete_comes_last "m2" "alice" (library [])
              "m2" "alice") as (_ & _ & Hlast).
  - replace (calls (snd (run (delete_media "m2" "alice") (library []))))
      with [CallFetchOwned "m2" "alice";
            CallBlobDelete (VStr "alice/v.mp4");
            CallDeleteMedia "m2" "alice"]
      by (reflexivity).
    do 2 apply list_elem_of_further. apply list_elem_of_here.
  - exact Hlast.
Defined.

Lemma delete_store_failure_after_blob_witness :
  fst (run (delete_media (H := with_faults media_writes_down) "m2" "alice")
         (library []))
  = Raise (HTTPException HTTP_500_INTERNAL_SERVER_ERROR
             "Failed to delete media")
  /\ blobs (ext (snd (run (delete_media (H := with_faults media_writes_down)
                            "m2" "alice") (library []))))
       !! "alice/v.mp4"
     = None
  /\ media (ext (snd (run (delete_media (H := with_faults media_writes_down)
                            "m2" "alice") (library []))))
       !! "m2"
     = Some stored_video.
Proof.
  erewrite (delete_store_failure_after_blob
              (H := with_faults media_writes_down)
              "m2" "alice" (library []) stored_video (library [])
              (VStr "alice/v.mp4") _ None
              (OtherError "store unavailable")).
  all: cycle 1.
  - reflexivity.
  - reflexivity.
  - reflexivity.
  - reflexivity.
  - reflexivity.
  - reflexivity.
  - split; [reflexivity |]. split; reflexivity.
Defined.

Lemma delete_record_without_file_name_witness :
  run (delete_media "m2" "alice") damaged_library
  = (Raise (HTTPException HTTP_500_INTERNAL_SERVER_ERROR
              "Failed to delete media"),
     {| ext := damaged_library;
        calls := [CallFetchOwned "m2" "alice"];
        logs := [LogRecord media_logger ERROR
                   "Delete media error: 'fileName'"] |}).
Proof.
  apply (delete_record_without_file_name "m2" "alice" damaged_library
           nameless_video damaged_library).
  - reflexivity.
  - reflexivity.
Defined.

Lemma register_success_path_witness :
  fst (run (register_account bob_signup) empty_store)
  = Return {| tk_token := "token:uuid-0";
              tk_user := {| ur_id := VStr "uuid-0";
                            ur_username := VStr "Bob";
                            ur_email := VStr "bob@example.org";
                            ur_createdAt := VStr "2024-01-01T00:00:00" |} |}
  /\ calls (snd (run (register_account bob_signup) empty_store))
     = [CallGetUserByEmail "bob@example.org";
        CallUuid4 "uuid-0";
        CallHashPassword "builder";
        CallUtcnow "2024-01-01T00:00:00";
        CallCreateUser
          (list_to_map [
             ("id", VStr "uuid-0");
             ("username", VStr "Bob");
             ("email", VStr "bob@example.org");
             ("hashed_password", VStr "hash:builder");
             ("created_at", VStr "2024-01-01T00:00:00")]);
        CallCreateToken
          (list_to_map [
             ("sub", VStr "uuid-0");
             ("email", VStr "bob@example.org")])].
Proof.
  erewrite (register_success_path bob_signup empty_store None empty_store
              "uuid-0" _ "hash:builder" _ "2024-01-01T00:00:00" _
              (list_to_map [
                 ("id", VStr "uuid-0");
                 ("username", VStr "Bob");
                 ("email", VStr "bob@example.org");
                 ("hashed_password", VStr "hash:builder");
                 ("created_at", VStr "2024-01-01T00:00:00")])
              _ "token:uuid-0" _
              (VStr "uuid-0") (VStr "Bob") (VStr "bob@example.org")
              (VStr "2024-01-01T00:00:00")).
  all: cycle 1.
  - reflexivity.
  - reflexivity.
  - reflexivity.
  - reflexivity.
  - reflexivity.
  - reflexivity.
  - reflexivity.
  - reflexivity.
  - reflexivity.
  - reflexivity.
  - reflexivity.
  - by split.
Defined.

Lemma register_hash_failure_witness :
  fst (run (register_account (H := with_faults hashing_rejects) bob_signup)
         empty_store)
  = Raise (HTTPException HTTP_400_BAD_REQUEST "password is too long")
  /\ calls (snd (run (register_account (H := with_faults hashing_rejects)
                        bob_signup) empty_store))
     = [CallGetUserByEmail "bob@example.org";
        CallUuid4 "uuid-0";
        CallHashPassword "builder"]
  /\ users (ext (snd (run (register_account
                             (H := with_faults hashing_rejects) bob_signup)
                         empty_store)))
     = [].
Proof.
  edestruct (register_hash_failure (H := with_faults hashing_rejects)
               bob_signup empty_store None empty_store "uuid-0")
    as (Hraise & Hcalls & Hstore).
  - reflexivity.
  - reflexivity.
  - reflexivity.
  - reflexivity.
  - rewrite Hraise, Hcalls, Hstore. by repeat split.
Defined.

Lemma register_incomplete_stored_user_witness :
  fst (run (register_account
              (H := forgetful_users ["created_at"; "username"]) bob_signup)
         empty_store)
  = Raise (HTTPException HTTP_500_INTERNAL_SERVER_ERROR
             "Failed to register user: 'username'")
  /\ length (users (ext (snd (run (register_account
                                     (H := forgetful_users
                                             ["created_at"; "username"])
                                     bob_signup) empty_store))))
     = 1%nat.
Proof.
  erewrite (register_incomplete_stored_user
              (H := forgetful_users ["created_at"; "username"])
              bob_signup empty_store None empty_store
              "uuid-0" _ "hash:builder" _ "2024-01-01T00:00:00" _
              (delete "created_at"
                 (delete "username"
                    (list_to_map [
                       ("id", VStr "uuid-0");
                       ("username", VStr "Bob");
                       ("email", VStr "bob@example.org");
                       ("hashed_password", VStr "hash:builder");
                       ("created_at", VStr "2024-01-01T00:00:00")] : doc)))
              _ "token:uuid-0" _ "username").
  all: cycle 1.
  - reflexivity.
  - reflexivity.
  - reflexivity.
  - reflexivity.
  - reflexivity.
  - reflexivity.
  - reflexivity.
  - reflexivity.
  - split; reflexivity.
Defined.

Lemma login_success_path_witness :
  run (login_account alice_login) with_alice
  = (Return {| tk_token := "token:alice";
               tk_user := {| ur_id := VStr "alice";
                             ur_username := VStr "Alice";
                             ur_email := VStr "alice@example.org";
                             ur_createdAt := VStr "2023-12-31T00:00:00" |} |},
     {| ext := with_alice;
        calls := [
          CallGetUserByEmail "alice@example.org";
          CallCreateToken
            (list_to_map [("sub", VStr "alice");
                          ("email", VStr "alice@example.org")])];
        logs := [
          LogRecord auth_logger INFO
            "Login attempt for email: alice@example.org";
          LogRecord auth_logger INFO
            "Login successful for user: alice@example.org"] |}).
Proof.
  apply (login_success_path alice_login with_alice alice with_alice
           (VStr "hash:wonderland")
           (VStr "alice") (VStr "Alice") (VStr "alice@example.org")
           (VStr "2023-12-31T00:00:00") "token:alice" with_alice);
    reflexivity.
Defined.

Lemma login_record_without_hash_witness :
  run (login_account carol_login) with_carol
  = (Raise (HTTPException HTTP_500_INTERNAL_SERVER_ERROR
              "Failed to login: 'hashed_password'"),
     {| ext := with_carol;
        calls := [CallGetUserByEmail "carol@example.org"];
        logs := [
          LogRecord auth_logger INFO
            "Login attempt for email: carol@example.org";
          LogRecord auth_logger ERROR
            "Login error: 'hashed_password'"] |}).
Proof.
  apply (login_record_without_hash carol_login with_carol carol with_carol);
    reflexivity.
Defined.
